(** * ffpuppet/helpers.py: sanitizer option store, environment builder and
      handle-release waiter.

    A shallow embedding of [SanitizerConfig], [check_prefs],
    [configure_sanitizers], [prepare_environment] and [wait_on_files],
    followed by the properties the specification states about them.

    Conventions.
    - Python [str] is [string]; a [dict] from [str] to [str] is a
      [gmap string string].  The order in which a [dict] enumerates its
      items is not fixed by the language version the module targets;
      [options] takes that of [map_to_list], and no statement rests on
      it: what is proved about reading a serialization back holds for
      every order of the items, and what is proved about a serialized
      value says that it joins the items in some order.
    - Times are Python floats, each modelled by the rational it denotes;
      the one addition the code performs on them is [float_add] of the
      class [PyFloat], which may round.
    - Exceptions are values of [exn]; a call that may raise returns a
      [result].  Exception messages are not modelled.
    - The module logger is a list of [log_event], oldest first.
    - [os.path], [platform] and [psutil] are outside the repository: the
      file system is the class [OsPath], the process table an explicit
      [World] of observations. *)

From Stdlib Require Import Ascii String QArith.
From stdpp Require Import gmap strings list fin_maps.

Local Open Scope stdpp_scope.

(** ** Exceptions, results and the logger *)

Inductive exn : Type :=
  | AssertionError
  | IOError
  | ValueError.

Inductive result (A : Type) : Type :=
  | Ok (a : A)
  | Raise (e : exn).
Arguments Ok {A} a.
Arguments Raise {A} e.

Definition is_ok {A : Type} (r : result A) : bool :=
  match r with
  | Ok _ => true
  | Raise _ => false
  end.

Inductive log_event : Type :=
  | WarnMalformedOption (key : string)
  | WarnSymbolizerMissing
  | WarnInvalidSymbolizerPath (path : string)
  | DebugTimeoutWaitingFor (files : list string).

(** ** Python string primitives *)

Module Py.

(** [c in cls] for a character class. *)
Definition in_class (cls : list ascii) (c : ascii) : bool :=
  existsb (Ascii.eqb c) cls.

(** [c in s] for a one-character needle. *)
Fixpoint contains (c : ascii) (s : string) : bool :=
  match s with
  | EmptyString => false
  | String d rest => Ascii.eqb c d || contains c rest
  end.

(** Splitting at every position where [sep_here] accepts the suffix that
    starts there; the accepted character is dropped.  Returns the first
    piece and the remaining ones, so that the result is never empty. *)
Fixpoint split_aux (sep_here : string -> bool) (s : string)
  : string * list string :=
  match s with
  | EmptyString => (EmptyString, [])
  | String c rest =>
      let '(t, ts) := split_aux sep_here rest in
      if sep_here (String c rest) then (EmptyString, t :: ts)
      else (String c t, ts)
  end.

Definition split_by (sep_here : string -> bool) (s : string) : list string :=
  let '(t, ts) := split_aux sep_here s in t :: ts.

(** [s.split(sep)] for a one-character separator. *)
Definition starts_with_char (c : ascii) (s : string) : bool :=
  match s with
  | String d _ => Ascii.eqb d c
  | EmptyString => false
  end.

Definition str_split (sep : ascii) (s : string) : list string :=
  split_by (starts_with_char sep) s.

(** [sep.join(l)]. *)
Fixpoint join (sep : string) (l : list string) : string :=
  match l with
  | [] => ""
  | [x] => x
  | x :: xs => x +:+ sep +:+ join sep xs
  end.

(** [a, b = l]: unpacking into exactly two names. *)
Definition unpack2 (l : list string) : result (string * string) :=
  match l with
  | [a; b] => Ok (a, b)
  | _ => Raise ValueError
  end.

(** [s.lower()] on ASCII and [s.startswith(p)]. *)
Definition lower_char (c : ascii) : ascii :=
  let n := nat_of_ascii c in
  if (65 <=? n)%nat && (n <=? 90)%nat then ascii_of_nat (n + 32) else c.

Fixpoint lower (s : string) : string :=
  match s with
  | EmptyString => EmptyString
  | String c rest => String (lower_char c) (lower rest)
  end.

Definition startswith (s p : string) : bool := String.prefix p s.

(** Truth value of a [str]. *)
Definition truthy (s : string) : bool :=
  match s with
  | EmptyString => false
  | String _ _ => true
  end.

End Py.

(** ** The pattern [re_delim = re.compile(r":(?![\\|/])")]

    A literal character followed by a negative look-ahead on a character
    class.  The look-ahead consumes nothing and succeeds at the end of the
    input. *)

Record delim_pattern : Type := {
  pat_literal : ascii;
  pat_not_followed_by : list ascii
}.

Definition re_match_here (p : delim_pattern) (s : string) : bool :=
  match s with
  | String c rest =>
      Ascii.eqb c (pat_literal p)
      && negb (match rest with
               | String d _ => Py.in_class (pat_not_followed_by p) d
               | EmptyString => false
               end)
  | EmptyString => false
  end.

(** [p.split(s)]: every match is one character wide, so matches never
    overlap and the pieces are what lies between them. *)
Definition re_split (p : delim_pattern) (s : string) : list string :=
  Py.split_by (re_match_here p) s.

Definition re_delim : delim_pattern :=
  {| pat_literal := ":"; pat_not_followed_by := ["\"; "|"; "/"] |}%char.

(** ** The file system and platform, as [os.path] and [platform] see them *)

Class OsPath : Type := {
  abspath : string -> string;
  expanduser : string -> string;
  isfile : string -> bool;
  path_exists : string -> bool;
  realpath : string -> string;
  normcase : string -> string;
  path_join : string -> string -> string;
  platform_system : string
}.

(** ** Float arithmetic

    Times are Python floats; a float is modelled by the rational it
    denotes, so comparisons are exact.  [float_add x y] is the float
    [x + y]: the exact sum rounded to a representable value, which is the
    first argument itself when the second is zero. *)

Class PyFloat : Type := {
  float_add : Q -> Q -> Q;
  float_add_0_r : forall x y : Q, (y == 0)%Q -> (float_add x y == x)%Q
}.

(** ** [class SanitizerConfig] *)

Record SanitizerConfig : Type := mkSanitizerConfig {
  _options : gmap string string
}.

(** [SanitizerConfig()] *)
Definition SanitizerConfig_init : SanitizerConfig :=
  {| _options := ∅ |}.

(** [self.add(key, value, overwrite=False)] *)
Definition add (key value : string) (overwrite : bool) (self : SanitizerConfig)
  : SanitizerConfig :=
  if negb (bool_decide (is_Some (_options self !! key))) || overwrite
  then {| _options := <[key := value]> (_options self) |}
  else self.

(** The object and the logger, threaded through [load_options]: an
    exception leaves both as they were when it was raised. *)
Record loader_state : Type := mkLoaderState {
  ls_self : SanitizerConfig;
  ls_log : list log_event
}.

Section Loader.
Context `{OsPath}.

(** The sanity check for suppression files (lines 44-47): the value to
    store, or [IOError]. *)
Definition check_suppressions (opt_name opt_value : string) : result string :=
  if String.eqb opt_name "suppressions" then
    let opt_value := abspath (expanduser opt_value) in
    if negb (isfile opt_value) then Raise IOError else Ok opt_value
  else Ok opt_value.

(** [self._options[opt_name] = opt_value] *)
Definition set_option (opt_name opt_value : string) (st : loader_state)
  : loader_state :=
  {| ls_self := {| _options := <[opt_name := opt_value]> (_options (ls_self st)) |};
     ls_log := ls_log st |}.

(** [log.warning("Malformed option in %r", key)] *)
Definition warn_malformed (key : string) (st : loader_state) : loader_state :=
  {| ls_self := ls_self st; ls_log := ls_log st ++ [WarnMalformedOption key] |}.

(** The [try] block of the loop body. *)
Definition try_option (option : string) (st : loader_state)
  : loader_state * result unit :=
  match Py.unpack2 (Py.str_split "="%char option) with
  | Raise e => (st, Raise e)
  | Ok (opt_name, opt_value) =>
      match check_suppressions opt_name opt_value with
      | Raise e => (st, Raise e)
      | Ok opt_value => (set_option opt_name opt_value st, Ok tt)
      end
  end.

(** One iteration of the [for] loop: the [try] block under
    [except ValueError]. *)
Definition load_option (key option : string) (st : loader_state)
  : loader_state * result unit :=
  match try_option option st with
  | (st', Raise ValueError) => (warn_malformed key st', Ok tt)
  | r => r
  end.

(** The [for] loop: stops at the first exception. *)
Fixpoint load_tokens (key : string) (tokens : list string) (st : loader_state)
  : loader_state * result unit :=
  match tokens with
  | [] => (st, Ok tt)
  | option :: rest =>
      match load_option key option st with
      | (st', Ok _) => load_tokens key rest st'
      | (st', Raise e) => (st', Raise e)
      end
  end.

(** [self.load_options(env, key)] *)
Definition load_options (env : gmap string string) (key : string)
    (st : loader_state) : loader_state * result unit :=
  match env !! key with
  | None => (st, Ok tt)
  | Some raw =>
      if Py.contains " "%char raw then (st, Raise AssertionError)
      else load_tokens key (re_split re_delim raw) st
  end.

End Loader.

(** [self.options]: the items of the dictionary, in the order [items]
    enumerates them, joined. *)
Definition serialize_items (items : list (string * string)) : string :=
  Py.join ":" (map (fun kv => Py.join "=" [kv.1; kv.2]) items).

Definition options (self : SanitizerConfig) : string :=
  serialize_items (map_to_list (_options self)).

(** A sequence of [add] calls, first call first. *)
Definition add_all (calls : list (string * string * bool))
    (self : SanitizerConfig) : SanitizerConfig :=
  foldl (fun cfg call => add call.1.1 call.1.2 call.2 cfg) self calls.

(** ** [configure_sanitizers] *)

(** ['%s' % log_path] *)
Definition quoted (s : string) : string := "'" +:+ s +:+ "'".

(** The [add] calls of lines 98-110, 117-118 and 124-125. *)
Definition asan_adds (log_path : string) : list (string * string * bool) :=
  [ ("abort_on_error", "true", false);
    ("allocator_may_return_null", "true", false);
    ("check_initialization_order", "true", false);
    ("detect_leaks", "false", false);
    ("disable_coredump", "true", false);
    ("log_path", quoted log_path, true);
    ("sleep_before_dying", "0", false);
    ("strict_init_order", "true", false);
    ("symbolize", "true", false) ].

Definition lsan_adds : list (string * string * bool) :=
  [ ("max_leaks", "1", false);
    ("print_suppressions", "false", false) ].

Definition ubsan_adds (log_path : string) : list (string * string * bool) :=
  [ ("log_path", quoted log_path, true);
    ("print_stacktrace", "1", false) ].

Section Environment.
Context `{OsPath}.

(** One sanitizer family: a fresh [SanitizerConfig], [load_options] from
    [env[var]], the family's [add] calls, then [env[var] = config.options].
    The three families of [configure_sanitizers] have this shape. *)
Definition configure_family (var : string)
    (adds : list (string * string * bool))
    (env : gmap string string) (log : list log_event)
  : (gmap string string * list log_event) * result SanitizerConfig :=
  match load_options env var {| ls_self := SanitizerConfig_init; ls_log := log |} with
  | (st, Raise e) => ((env, ls_log st), Raise e)
  | (st, Ok _) =>
      let config := add_all adds (ls_self st) in
      ((<[var := options config]> env, ls_log st), Ok config)
  end.

(** Lines 128-137: the symbolizer. *)
Definition configure_symbolizer (target_dir : string)
    (env : gmap string string) (log : list log_event)
  : gmap string string * list log_event :=
  match env !! "ASAN_SYMBOLIZER_PATH" with
  | None =>
      if negb (Py.startswith (Py.lower platform_system) "windows") then
        let symbolizer_bin := path_join target_dir "llvm-symbolizer" in
        if isfile symbolizer_bin
        then (<["ASAN_SYMBOLIZER_PATH" := symbolizer_bin]> env, log)
        else (env, log)
      else if negb (Py.truthy (path_join target_dir "llvm-symbolizer.exe"))
      then (env, log ++ [WarnSymbolizerMissing])
      else (env, log)
  | Some path =>
      if negb (isfile path)
      then (env, log ++ [WarnInvalidSymbolizerPath path])
      else (env, log)
  end.

(** [configure_sanitizers(env, target_dir, log_path)]: [env] is changed
    in place, so the environment and the log are returned also when an
    exception is raised. *)
Definition configure_sanitizers (env : gmap string string)
    (target_dir log_path : string) (log : list log_event)
  : (gmap string string * list log_event) * result unit :=
  match configure_family "ASAN_OPTIONS" (asan_adds log_path) env log with
  | (r, Raise e) => (r, Raise e)
  | ((env, log), Ok _) =>
      match configure_family "LSAN_OPTIONS" lsan_adds env log with
      | (r, Raise e) => (r, Raise e)
      | ((env, log), Ok _) =>
          match configure_family "UBSAN_OPTIONS" (ubsan_adds log_path) env log with
          | (r, Raise e) => (r, Raise e)
          | ((env, log), Ok _) =>
              (configure_symbolizer target_dir env log, Ok tt)
          end
      end
  end.

(** ** [prepare_environment] *)

(** Lines 279-289: assigned whatever [env] held before. *)
Definition fixed_toggles : list (string * string) :=
  [ ("G_SLICE", "always-malloc");
    ("MOZ_CC_RUN_DURING_SHUTDOWN", "1");
    ("MOZ_CRASHREPORTER", "1");
    ("MOZ_CRASHREPORTER_NO_REPORT", "1");
    ("MOZ_DISABLE_CONTENT_SANDBOX", "1");
    ("MOZ_DISABLE_GMP_SANDBOX", "1");
    ("MOZ_DISABLE_GPU_SANDBOX", "1");
    ("MOZ_DISABLE_NPAPI_SANDBOX", "1");
    ("MOZ_GDB_SLEEP", "0");
    ("XRE_NO_WINDOWS_CRASH_DIALOG", "1");
    ("XPCOM_DEBUG_BREAK", "warn") ].

(** Lines 292-296: assigned only [if name not in env]. *)
Definition default_toggles : list (string * string) :=
  [ ("MOZ_SKIA_DISABLE_ASSERTS", "1");
    ("RUST_BACKTRACE", "full") ].

(** [env[name] = value] *)
Definition assign (env : gmap string string) (kv : string * string)
  : gmap string string :=
  <[kv.1 := kv.2]> env.

(** [if name not in env: env[name] = value] *)
Definition assign_if_absent (env : gmap string string) (kv : string * string)
  : gmap string string :=
  match env !! kv.1 with
  | None => <[kv.1 := kv.2]> env
  | Some _ => env
  end.

(** One iteration of the loop over [env_mod.items()]. *)
Definition apply_mod (env : gmap string string) (item : string * option string)
  : gmap string string :=
  match item.2 with
  | Some env_value => <[item.1 := env_value]> env
  | None =>
      if bool_decide (is_Some (env !! item.1)) then delete item.1 env else env
  end.

(** [prepare_environment(target_dir, sanitizer_log, env_mod=None)].
    [environ] is [os.environ]; an [env_mod] value is a [str] or [None]. *)
Definition prepare_environment (environ : gmap string string)
    (target_dir sanitizer_log : string)
    (env_mod : option (gmap string (option string)))
    (log : list log_event)
  : list log_event * result (gmap string string) :=
  let env := environ in
  let env := foldl assign env fixed_toggles in
  let env := foldl assign_if_absent env default_toggles in
  match configure_sanitizers env target_dir sanitizer_log log with
  | ((_, log), Raise e) => (log, Raise e)
  | ((env, log), Ok _) =>
      match env_mod with
      | None => (log, Ok env)
      | Some env_mod => (log, Ok (foldl apply_mod env (map_to_list env_mod)))
      end
  end.

End Environment.

(** ** [wait_on_files]

    [psutil] answers differently every time it is asked.  A [World] fixes
    what each call returns: [w_Process] is [psutil.Process(pid)],
    [w_time0] the clock read on line 338, and [w_poll i] what the calls of
    the [i]-th evaluation of the loop return.  A [psutil] call returns a
    value or raises one of the two exceptions the function handles. *)

Inductive psutil_result (A : Type) : Type :=
  | PsOk (a : A)
  | AccessDenied
  | NoSuchProcess.
Arguments PsOk {A} a.
Arguments AccessDenied {A}.
Arguments NoSuchProcess {A}.

Record poll_observation : Type := {
  obs_is_running : psutil_result bool;
  obs_children : psutil_result (list Z);
  obs_open_files : Z -> psutil_result (list string);
  obs_time : Q
}.

Record World : Type := {
  w_time0 : Q;
  w_Process : Z -> psutil_result unit;
  w_poll : nat -> poll_observation
}.

(** What the function does to the outside, in order. *)
Inductive effect : Type :=
  | Sleep (seconds : Q)
  | Log (e : log_event).

Section Waiter.
Context `{OsPath} `{PyFloat}.

(** [os.path.normcase(os.path.realpath(x))] *)
Definition normalize (x : string) : string := normcase (realpath x).

(** Lines 344-355: the normalized open files of the process and, if
    [recursive], of its descendants. *)
Definition poll_open_files (obs : poll_observation) (pid : Z)
    (recursive : bool) : list string :=
  let children :=
    if recursive then
      match obs_children obs with
      | PsOk c => c
      | _ => []
      end
    else [] in
  let open_files :=
    flat_map (fun target =>
                match obs_open_files obs target with
                | PsOk paths => paths
                | _ => []
                end) (pid :: children) in
  map normalize (remove_dups open_files).

(** Line 340: the existing paths of [wait_files], normalized. *)
Definition normalize_wait_files (wait_files : list string) : list string :=
  map normalize (filter (fun x => path_exists x = true) wait_files).

(** [x for x in open_files if x in wait_files] *)
Definition still_open (wait_files open_files : list string) : list string :=
  filter (fun x => x ∈ wait_files) open_files.

(** The [while] loop, from its [i]-th evaluation on.  [fuel] bounds the
    number of further iterations; [None] means it was too small. *)
Fixpoint wait_loop (world : World) (pid : Z) (wait_files : list string)
    (poll_rate : Q) (recursive : bool) (wait_end : Q)
    (fuel i : nat) (trace : list effect)
  : option (list effect * result bool) :=
  let obs := w_poll world i in
  match obs_is_running obs with
  | PsOk running =>
      if running && negb (bool_decide (wait_files = [])) then
        let open_files := poll_open_files obs pid recursive in
        if negb (existsb Py.truthy (still_open wait_files open_files)) then
          Some (trace, Ok true)
        else if Qle_bool wait_end (obs_time obs) then
          Some (trace ++ [Log (DebugTimeoutWaitingFor
                                 (still_open wait_files open_files))],
                Ok false)
        else
          match fuel with
          | O => None
          | S fuel =>
              wait_loop world pid wait_files poll_rate recursive wait_end
                fuel (S i) (trace ++ [Sleep poll_rate])
          end
      else Some (trace, Ok true)
  | _ => Some (trace, Ok true)
  end.

(** [wait_on_files(pid, wait_files, poll_rate, recursive, timeout)]. *)
Definition wait_on_files (world : World) (pid : Z) (wait_files : list string)
    (poll_rate : Q) (recursive : bool) (timeout : Q) (fuel : nat)
  : option (list effect * result bool) :=
  if negb (Qle_bool 0 poll_rate) then Some ([], Raise AssertionError)
  else if negb (Qle_bool 0 timeout) then Some ([], Raise AssertionError)
  else if negb (Qle_bool poll_rate timeout) then Some ([], Raise AssertionError)
  else
    let wait_end := float_add (w_time0 world) timeout in
    let wait_files := normalize_wait_files wait_files in
    match w_Process world pid with
    | PsOk _ =>
        wait_loop world pid wait_files poll_rate recursive wait_end fuel 0 []
    | _ => Some ([], Ok true)
    end.

End Waiter.

(** ** The split rule on positions *)

Definition path_separator_like (c : ascii) : Prop :=
  c = "\"%char \/ c = "|"%char \/ c = "/"%char.

(** Position [i] of [s] holds a colon that is not immediately followed by a
    path-separator-like character. *)
Definition token_boundary (s : string) (i : nat) : Prop :=
  String.get i s = Some ":"%char
  /\ forall d, String.get (S i) s = Some d -> ~ path_separator_like d.

(** [s] does not begin with a path-separator-like character. *)
Definition plain_start (s : string) : Prop :=
  forall d, String.get 0 s = Some d -> ~ path_separator_like d.

(** The split rule in the words of the specification, for comparison with
    [re_split re_delim]: a colon separates tokens unless it is (a)
    immediately preceded by the escape marker [esc] or (b) immediately
    followed by a path-separator-like character.  [prev] is the character
    before the suffix [s]. *)
Fixpoint claimed_split_aux (esc : ascii) (prev : option ascii) (s : string)
  : string * list string :=
  match s with
  | EmptyString => (EmptyString, [])
  | String c rest =>
      let '(t, ts) := claimed_split_aux esc (Some c) rest in
      let escaped :=
        match prev with
        | Some b => Ascii.eqb b esc
        | None => false
        end in
      let before_path :=
        match rest with
        | String d _ => Py.in_class ["\"; "|"; "/"]%char d
        | EmptyString => false
        end in
      if Ascii.eqb c ":" && negb escaped && negb before_path
      then (EmptyString, t :: ts)
      else (String c t, ts)
  end.

Definition claimed_split (esc : ascii) (s : string) : list string :=
  let '(t, ts) := claimed_split_aux esc None s in t :: ts.

(** ** A small file system and option strings, for examples *)

Definition example_files : list string :=
  ["/etc/lsan.supp"; "/opt/firefox/llvm-symbolizer"; "/tmp/ffprof/lock"].

Definition example_os : OsPath := {|
  abspath s := if Py.starts_with_char "/" s then s else "/home/user/" +:+ s;
  expanduser s :=
    match s with
    | String "~" rest => "/home/user" +:+ rest
    | _ => s
    end;
  isfile s := bool_decide (s ∈ example_files);
  path_exists s := bool_decide (s ∈ example_files);
  realpath s := if Py.starts_with_char "/" s then s else "/home/user/" +:+ s;
  normcase s := s;
  path_join a b := a +:+ "/" +:+ b;
  platform_system := "Linux"
|}.

(** Float addition without rounding error, for examples. *)
Definition exact_float : PyFloat := {|
  float_add := Qplus;
  float_add_0_r := fun x y Hy =>
    Qeq_trans _ _ _ (Qplus_comp x x (Qeq_refl x) y 0%Q Hy) (Qplus_0_r x)
|}.

Definition tab : ascii := "009"%char.

(** A fresh [SanitizerConfig] and an empty log. *)
Definition fresh : loader_state :=
  {| ls_self := SanitizerConfig_init; ls_log := [] |}.

(** ** Names and values that serialization keeps apart

    [options] escapes nothing, so what [load_options] reads back depends
    on the characters of the names and values. *)

Definition name_ok (k : string) : Prop :=
  k <> ""
  /\ Py.contains ":" k = false
  /\ Py.contains "=" k = false
  /\ Py.contains " " k = false
  /\ plain_start k.

Definition value_ok (v : string) : Prop :=
  Py.contains "=" v = false
  /\ Py.contains " " v = false
  /\ forall i, ~ token_boundary v i.

(** A value stored under [suppressions] is already a normalized path of an
    existing file. *)
Definition suppressions_ok `{OsPath} (k v : string) : Prop :=
  k = "suppressions" -> abspath (expanduser v) = v /\ isfile v = true.

Definition call_ok `{OsPath} (call : string * string * bool) : Prop :=
  name_ok call.1.1 /\ value_ok call.1.2 /\ suppressions_ok call.1.1 call.1.2.

(** ** The effect of [env_mod] on one variable

    What the loop over [env_mod.items()] makes of a variable whose value
    before the loop is [before] ([None] when unset). *)

Definition after_env_mod (env_mod : option (gmap string (option string)))
    (name : string) (before : option string) : option string :=
  match env_mod with
  | None => before
  | Some env_mod =>
      match env_mod !! name with
      | Some (Some env_value) => Some env_value
      | Some None => None
      | None => before
      end
  end.

(** An environment for examples: the user has set some of the variables
    that [prepare_environment] touches. *)
Definition example_environ : gmap string string :=
  {[ "G_SLICE" := "debug-blocks";
     "RUST_BACKTRACE" := "1";
     "ASAN_OPTIONS" := "log_path=/elsewhere/asan.log:detect_leaks=true";
     "UBSAN_OPTIONS" := "log_path=/elsewhere/ubsan.log";
     "HOME" := "/home/user" ]}.

(** ** Vocabulary for [wait_on_files] *)

Definition timing_ok (poll_rate timeout : Q) : Prop :=
  (0 <= poll_rate /\ 0 <= timeout /\ poll_rate <= timeout)%Q.

Section WaiterVocabulary.
Context `{OsPath}.

(** At the [i]-th poll some file of the watch set is reported open by
    the process or, if [recursive], one of its descendants. *)
Definition watched_open (world : World) (pid : Z) (recursive : bool)
    (watch : list string) (i : nat) : Prop :=
  exists x, x ∈ poll_open_files (w_poll world i) pid recursive /\ x ∈ watch.

(** At the [i]-th poll the process is running and holds a watched file. *)
Definition busy (world : World) (pid : Z) (recursive : bool)
    (watch : list string) (i : nat) : Prop :=
  obs_is_running (w_poll world i) = PsOk true
  /\ watched_open world pid recursive watch i.

(** The clock read at the [i]-th poll has reached [wait_end]. *)
Definition deadline_reached (world : World) (wait_end : Q) (i : nat) : Prop :=
  (wait_end <= obs_time (w_poll world i))%Q.

(** The loop gets to its [k]-th poll, finds the process busy there and
    the deadline reached. *)
Definition times_out_at (world : World) (pid : Z) (recursive : bool)
    (watch : list string) (wait_end : Q) (k : nat) : Prop :=
  (forall j, (j < k)%nat ->
     busy world pid recursive watch j /\ ~ deadline_reached world wait_end j)
  /\ busy world pid recursive watch k
  /\ deadline_reached world wait_end k.

End WaiterVocabulary.

(** Worlds for examples: process 4242 keeps the lock file of the profile
    open until the third poll, or for ever; the clock advances by a tenth
    of a second per poll. *)
Definition example_world (release_at : option nat) : World := {|
  w_time0 := 100;
  w_Process pid := if bool_decide (pid = 4242%Z) then PsOk tt else NoSuchProcess;
  w_poll i := {|
    obs_is_running := PsOk true;
    obs_children := PsOk [4243%Z];
    obs_open_files target :=
      if bool_decide (target = 4243%Z) then
        match release_at with
        | Some n => if (i <? n)%nat then PsOk ["/tmp/ffprof/lock"] else PsOk []
        | None => PsOk ["/tmp/ffprof/lock"]
        end
      else AccessDenied;
    obs_time := 100 + inject_Z (Z.of_nat (S i)) / 10
  |}
|}.

(** ** [check_prefs]

    The function reads two text files.  [read_lines path] is what
    iterating over the open file yields: its lines, each with its line
    terminator.  The debug message goes to a log of its own. *)

Inductive prefs_debug : Type :=
  | DebugPrefsNotSet (names : string).

(** [s.lstrip(chars)]: leading characters that occur in [chars] are
    dropped. *)
Fixpoint py_lstrip (chars : list ascii) (s : string) : string :=
  match s with
  | String c rest => if Py.in_class chars c then py_lstrip chars rest else s
  | EmptyString => EmptyString
  end.

(** [s.split(sep)[0]]; the list is never empty. *)
Definition first_piece (sep : ascii) (s : string) : string :=
  match Py.str_split sep s with
  | piece :: _ => piece
  | [] => ""
  end.

(** [{pref.split(",")[0] for pref in fp if pref.startswith("user_pref(")}] *)
Definition pref_names (lines : list string) : gset string :=
  list_to_set
    (map (first_piece ",")
         (filter (fun pref => Py.startswith pref "user_pref(" = true) lines)).

Section Prefs.
Context `{OsPath}.
Variable read_lines : string -> list string.

(** [check_prefs(prof_prefs, input_prefs)] *)
Definition check_prefs (prof_prefs input_prefs : string)
  : list prefs_debug * result bool :=
  if negb (isfile input_prefs) then ([], Raise IOError)
  else if negb (isfile prof_prefs) then ([], Raise IOError)
  else
    let p_prefs := pref_names (read_lines prof_prefs) in
    let i_prefs := pref_names (read_lines input_prefs) in
    let missing_prefs := i_prefs ∖ p_prefs in
    ([DebugPrefsNotSet
        (Py.join ", "
           (map (py_lstrip (list_ascii_of_string "user_pref("))
                (elements missing_prefs)))],
     Ok (negb (negb (bool_decide (missing_prefs = ∅))))).

End Prefs.

(** Two preference files for examples: the profile has every preference
    of the input file, one of them with another value. *)
Definition prefs_os : OsPath := {|
  abspath s := s;
  expanduser s := s;
  isfile s := bool_decide (s ∈ ["/profile/prefs.js"; "/input/prefs.js"]);
  path_exists s := bool_decide (s ∈ ["/profile/prefs.js"; "/input/prefs.js"]);
  realpath s := s;
  normcase s := s;
  path_join a b := a +:+ "/" +:+ b;
  platform_system := "Linux"
|}.

Definition pref_line (name value : string) : string :=
  "user_pref(" +:+ String "034" name +:+ String "034" ", " +:+ value +:+ ");"
  +:+ String "010" "".

Definition example_prefs (path : string) : list string :=
  if String.eqb path "/profile/prefs.js" then
    [ "// generated" +:+ String "010" "";
      pref_line "a.b" "1";
      pref_line "c.d" "true" ]
  else if String.eqb path "/input/prefs.js" then
    [ pref_line "a.b" "2" ]
  else [].

(** ** Vocabulary for [configure_sanitizers] *)

(** The three families of [configure_sanitizers]: the variable and the
    [add] calls of each. *)
Definition sanitizer_families (log_path : string)
  : list (string * list (string * string * bool)) :=
  [ ("ASAN_OPTIONS", asan_adds log_path);
    ("LSAN_OPTIONS", lsan_adds);
    ("UBSAN_OPTIONS", ubsan_adds log_path) ].

(** The value of [var], if any, is an option string that [load_options]
    accepts: no space, and every suppressions file named exists. *)
Definition options_loadable `{OsPath} (env : gmap string string) (var : string)
  : Prop :=
  forall raw, env !! var = Some raw ->
    Py.contains " " raw = false
    /\ forall t v, t ∈ re_split re_delim raw ->
         Py.str_split "=" t = ["suppressions"; v] ->
         isfile (abspath (expanduser v)) = true.

(** The environment after the three families have assigned their
    variables: each holds the serialization of the options loaded from
    [env] overlaid by the family's [add] calls. *)
Definition with_sanitizer_options `{OsPath} (env : gmap string string)
    (log_path : string) : gmap string string :=
  <["UBSAN_OPTIONS" :=
      options (add_all (ubsan_adds log_path)
                 (ls_self (load_options env "UBSAN_OPTIONS" fresh).1))]>
    (<["LSAN_OPTIONS" :=
         options (add_all lsan_adds
                    (ls_self (load_options env "LSAN_OPTIONS" fresh).1))]>
       (<["ASAN_OPTIONS" :=
            options (add_all (asan_adds log_path)
                       (ls_self (load_options env "ASAN_OPTIONS" fresh).1))]>
          env)).

(** A world in which the process runs for ever and every enumeration of
    open files is refused. *)
Definition denied_world : World := {|
  w_time0 := 100;
  w_Process pid := PsOk tt;
  w_poll i := {|
    obs_is_running := PsOk true;
    obs_children := AccessDenied;
    obs_open_files target := AccessDenied;
    obs_time := 100 + inject_Z (Z.of_nat (S i)) / 10
  |}
|}.

(** ** The process tree, read off the observations

    What a poll has to find, said without the function that finds it. *)

(** [target] is the process itself or, if [recursive], one of the
    descendants that [children(recursive=True)] reports. *)
Definition in_tree (obs : poll_observation) (pid : Z) (recursive : bool)
    (target : Z) : Prop :=
  target = pid
  \/ (recursive = true
      /\ exists children, obs_children obs = PsOk children /\ target ∈ children).

Section TreeVocabulary.
Context `{OsPath}.

(** [x] is the normalized path of a file that a process of the tree
    reports open at the [i]-th poll. *)
Definition open_in_tree (world : World) (pid : Z) (recursive : bool)
    (i : nat) (x : string) : Prop :=
  exists target paths path,
    in_tree (w_poll world i) pid recursive target
    /\ obs_open_files (w_poll world i) target = PsOk paths
    /\ path ∈ paths
    /\ x = normcase (realpath path).

(** [x] is the normalized path of a file of [wait_files] that exists. *)
Definition watched (wait_files : list string) (x : string) : Prop :=
  exists w, w ∈ wait_files /\ path_exists w = true /\ x = normcase (realpath w).

(** At the [i]-th poll the tree holds a watched file open. *)
Definition holds_watched (world : World) (pid : Z) (recursive : bool)
    (wait_files : list string) (i : nat) : Prop :=
  exists x, open_in_tree world pid recursive i x /\ watched wait_files x.

(** Every poll before the [k]-th finds the process running with a watched
    file open and the clock short of [wait_end]; the [k]-th finds the
    process running with a watched file open and the clock at or past
    [wait_end]. *)
Definition gives_up_at (world : World) (pid : Z) (recursive : bool)
    (wait_files : list string) (wait_end : Q) (k : nat) : Prop :=
  (forall j, (j < k)%nat ->
     obs_is_running (w_poll world j) = PsOk true
     /\ holds_watched world pid recursive wait_files j
     /\ ~ (wait_end <= obs_time (w_poll world j))%Q)
  /\ obs_is_running (w_poll world k) = PsOk true
  /\ holds_watched world pid recursive wait_files k
  /\ (wait_end <= obs_time (w_poll world k))%Q.

End TreeVocabulary.

(** ** Reading an option back out of an option string *)

(** The option [name] that [load_options] parses out of the option string
    [raw] into a fresh object. *)
Definition parsed_option `{OsPath} (raw name : string) : option string :=
  _options (ls_self (load_options {[ "OPTIONS" := raw ]} "OPTIONS" fresh).1)
    !! name.

(** The options that [load_options] reads from [var] have names and values
    that serialization keeps apart. *)
Definition loaded_well_formed `{OsPath} (environ : gmap string string)
    (var : string) : Prop :=
  forall k v,
    _options (ls_self (load_options environ var fresh).1) !! k = Some v ->
    name_ok k /\ value_ok v /\ suppressions_ok k v.

(** A file system in which the home directory has a space in its name. *)
Definition spaced_home_os : OsPath := {|
  abspath s := s;
  expanduser s :=
    match s with
    | String "~" rest => "/home/fuzz user" +:+ rest
    | _ => s
    end;
  isfile s := true;
  path_exists s := true;
  realpath s := s;
  normcase s := s;
  path_join a b := a +:+ "/" +:+ b;
  platform_system := "Linux"
|}.

(** * Properties *)

(** ** Strings *)

Section StringFacts.

Lemma app_String c s t : String c s +:+ t = String c (s +:+ t).
Proof. reflexivity. Qed.

Lemma app_empty_l t : "" +:+ t = t.
Proof. reflexivity. Qed.

Lemma app_empty_r s : s +:+ "" = s.
Proof. induction s as [|c s IH]; [done|]. by rewrite app_String, IH. Qed.

Lemma app_assoc_str s t u : (s +:+ t) +:+ u = s +:+ (t +:+ u).
Proof. induction s as [|c s IH]; [done|]. by rewrite !app_String, IH. Qed.

Lemma join_cons sep x y l :
  Py.join sep (x :: y :: l) = x +:+ sep +:+ Py.join sep (y :: l).
Proof. reflexivity. Qed.

Lemma contains_app c s t :
  Py.contains c (s +:+ t) = Py.contains c s || Py.contains c t.
Proof.
  induction s as [|d s IH]; [done|].
  rewrite app_String. simpl. rewrite IH. by rewrite orb_assoc.
Qed.

Lemma split_by_cons f c rest :
  Py.split_by f (String c rest) =
    if f (String c rest) then "" :: Py.split_by f rest
    else match Py.split_by f rest with
         | t :: ts => String c t :: ts
         | [] => []
         end.
Proof.
  unfold Py.split_by. simpl.
  destruct (Py.split_aux f rest) as [t ts]. by destruct (f _).
Qed.

Lemma split_by_nonempty f s : Py.split_by f s <> [].
Proof. unfold Py.split_by. by destruct (Py.split_aux f s). Qed.

(** A string without separator positions is a single piece. *)
Lemma split_by_none f s :
  (forall pre post, s = pre +:+ post -> f post = false) ->
  Py.split_by f s = [s].
Proof.
  induction s as [|c s IH]; intros Hf; [done|].
  rewrite split_by_cons, (Hf "" (String c s) eq_refl).
  rewrite IH; [done|].
  intros pre post ->. by apply (Hf (String c pre) post).
Qed.

(** Splitting distributes over a separator position. *)
Lemma split_by_app f t r :
  (forall pre post, t = pre +:+ post -> post <> "" -> f (post +:+ r) = false) ->
  Py.split_by f (t +:+ r) =
    match Py.split_by f r with
    | u :: us => (t +:+ u) :: us
    | [] => []
    end.
Proof.
  induction t as [|c t IH]; intros Hf.
  - rewrite app_empty_l. destruct (Py.split_by f r) eqn:E; [done|done].
  - rewrite app_String, split_by_cons, <- app_String.
    rewrite (Hf "" (String c t) eq_refl); [|done].
    rewrite IH.
    + by destruct (Py.split_by f r).
    + intros pre post -> Hne. by apply (Hf (String c pre) post).
Qed.

(** Joining the pieces with the separator gives the string back, when
    only the separator character is ever accepted. *)
Lemma join_split_by f c s :
  (forall u, f u = true -> Py.starts_with_char c u = true) ->
  Py.join (String c "") (Py.split_by f s) = s.
Proof.
  intros Hf. induction s as [|d s IH]; [done|].
  rewrite split_by_cons.
  destruct (f (String d s)) eqn:E.
  - apply Hf in E. simpl in E. apply Ascii.eqb_eq in E as ->.
    pose proof (split_by_nonempty f s) as Hne.
    destruct (Py.split_by f s) as [|t ts] eqn:Es; [done|].
    rewrite join_cons, IH. done.
  - pose proof (split_by_nonempty f s) as Hne.
    destruct (Py.split_by f s) as [|t ts] eqn:Es; [done|].
    destruct ts as [|t2 ts].
    + simpl in *. by rewrite IH.
    + rewrite join_cons in *. by rewrite app_String, IH.
Qed.

End StringFacts.

(** ** The delimiter pattern *)

Section Delimiter.

Lemma in_class_separator d :
  Py.in_class (pat_not_followed_by re_delim) d = true <-> path_separator_like d.
Proof.
  unfold Py.in_class, path_separator_like. simpl.
  rewrite orb_false_r, !orb_true_iff, !Ascii.eqb_eq. tauto.
Qed.

Lemma in_class_separator_false d :
  Py.in_class (pat_not_followed_by re_delim) d = false <-> ~ path_separator_like d.
Proof.
  rewrite <- in_class_separator. by destruct (Py.in_class _ d).
Qed.

Lemma token_boundary_S c s i :
  token_boundary (String c s) (S i) <-> token_boundary s i.
Proof. reflexivity. Qed.

Lemma token_boundary_app pre post i :
  token_boundary post i -> token_boundary (pre +:+ post) (String.length pre + i).
Proof. induction pre as [|c pre IH]; [done|]. intros Hb. by apply IH. Qed.

(** The pattern matches at the head of [s] exactly when position 0 is a
    token boundary. *)
Lemma re_match_here_boundary s :
  re_match_here re_delim s = true <-> token_boundary s 0.
Proof.
  unfold token_boundary. destruct s as [|c rest]; simpl.
  { split; [done|]. by intros [? _]. }
  rewrite andb_true_iff, negb_true_iff, Ascii.eqb_eq. split.
  - intros [-> Hd]. split; [done|]. intros d Hget.
    destruct rest as [|d' r]; [done|]. simpl in Hget. simplify_eq.
    by apply in_class_separator_false.
  - intros [[= ->] Hd]. split; [done|].
    destruct rest as [|d r]; [done|].
    apply in_class_separator_false. by apply Hd.
Qed.

Lemma re_match_here_plain rest :
  plain_start rest -> re_match_here re_delim (String ":" rest) = true.
Proof.
  intros Hp. apply re_match_here_boundary. split; [done|].
  intros d Hd. apply Hp. by destruct rest.
Qed.

Lemma re_match_here_colon s :
  re_match_here re_delim s = true -> Py.starts_with_char ":" s = true.
Proof. destruct s; simpl; [done|]. by intros [? _]%andb_true_iff. Qed.

(** A match inside [post +:+ r] at the head of a non-empty [post] is a
    boundary of [post] alone, when [r] begins with a colon. *)
Lemma re_match_here_prefix post r :
  post <> "" ->
  re_match_here re_delim (post +:+ String ":" r) = true ->
  token_boundary post 0.
Proof.
  destruct post as [|c p]; [done|]. intros _.
  rewrite app_String. simpl.
  rewrite andb_true_iff, negb_true_iff, Ascii.eqb_eq. intros [-> Hd].
  split; [done|]. intros d Hget.
  destruct p as [|d' p']; [done|]. simpl in Hget. simplify_eq.
  rewrite app_String in Hd. by apply in_class_separator_false.
Qed.

Lemma no_boundary_suffix t pre post :
  (forall i, ~ token_boundary t i) -> t = pre +:+ post ->
  ~ token_boundary post 0.
Proof.
  intros Hno -> Hb. apply (Hno (String.length pre + 0)).
  by apply token_boundary_app.
Qed.

(** A token without boundary is not split. *)
Lemma re_split_token t :
  (forall i, ~ token_boundary t i) -> re_split re_delim t = [t].
Proof.
  intros Hno. apply split_by_none. intros pre post Ht.
  destruct (re_match_here re_delim post) eqn:E; [|done].
  apply re_match_here_boundary in E.
  by destruct (no_boundary_suffix t pre post Hno Ht).
Qed.

(** A colon followed by a plain start separates what precedes it from
    what follows. *)
Lemma re_split_cons t rest :
  (forall i, ~ token_boundary t i) -> plain_start rest ->
  re_split re_delim (t +:+ ":" +:+ rest) = t :: re_split re_delim rest.
Proof.
  intros Hno Hp. unfold re_split.
  rewrite split_by_app.
  - change (":" +:+ rest) with (String ":" rest).
    rewrite split_by_cons, re_match_here_plain by done.
    by rewrite app_empty_r.
  - intros pre post Ht Hne.
    destruct (re_match_here re_delim (post +:+ ":" +:+ rest)) eqn:E; [|done].
    apply re_match_here_prefix in E; [|done].
    by destruct (no_boundary_suffix t pre post Hno Ht).
Qed.

Lemma plain_start_join t ts :
  plain_start t -> plain_start (Py.join ":" (t :: ts)).
Proof.
  intros Hp. destruct ts as [|t2 ts]; [done|].
  rewrite join_cons. destruct t as [|c t]; [|done].
  intros d [= <-] [?|[?|?]]; discriminate.
Qed.

(** Splitting a joined list of boundary-free tokens, each but the first
    with a plain start, gives the list back. *)
Lemma re_split_join ts :
  ts <> [] ->
  Forall (fun t => forall i, ~ token_boundary t i) ts ->
  Forall plain_start (tail ts) ->
  re_split re_delim (Py.join ":" ts) = ts.
Proof.
  induction ts as [|t ts IH]; [done|]. intros _ Hno Hp.
  apply Forall_cons in Hno as [Ht Hno]. simpl in Hp.
  destruct ts as [|t2 ts]; [by apply re_split_token|].
  apply Forall_cons in Hp as [Hp2 Hp].
  rewrite join_cons, re_split_cons; [|done|by apply plain_start_join].
  f_equal. apply IH; [done|done|].
  simpl. done.
Qed.

Lemma join_re_split s : Py.join ":" (re_split re_delim s) = s.
Proof. apply join_split_by. apply re_match_here_colon. Qed.

Lemma split_by_head f d s t ts :
  f (String d s) = false -> Py.split_by f (String d s) = t :: ts ->
  exists t', t = String d t'.
Proof.
  intros Hf. rewrite split_by_cons, Hf.
  destruct (Py.split_by f s); [done|]. intros [= <- _]. eauto.
Qed.

Lemma no_match_separator d s :
  path_separator_like d -> re_match_here re_delim (String d s) = false.
Proof. by intros [->|[->| ->]]. Qed.

(** A colon that the pattern rejects is followed by a separator-like
    character. *)
Lemma rejected_colon s :
  re_match_here re_delim (String ":" s) = false ->
  exists d s', s = String d s' /\ path_separator_like d.
Proof.
  destruct s as [|d s']; [done|]. simpl. rewrite negb_false_iff.
  intros Hd%in_class_separator. eauto.
Qed.

(** The pieces of a split: none contains a boundary, and each but the
    first has a plain start. *)
Lemma re_split_pieces s :
  Forall (fun t => forall i, ~ token_boundary t i) (re_split re_delim s)
  /\ Forall plain_start (tail (re_split re_delim s)).
Proof.
  unfold re_split.
  induction s as [|c s [IHno IHp]].
  { split; [|done]. constructor; [|done]. by intros [|i] [? _]. }
  rewrite split_by_cons.
  pose proof (split_by_nonempty (re_match_here re_delim) s) as Hne.
  pose proof (join_re_split s) as Hjoin. unfold re_split in Hjoin.
  destruct (Py.split_by (re_match_here re_delim) s) as [|t ts] eqn:Es; [done|].
  destruct (re_match_here re_delim (String c s)) eqn:E.
  - apply re_match_here_boundary in E as [[= ->] Hd].
    split.
    + constructor; [|done]. by intros [|i] [? _].
    + simpl. constructor; [|done].
      intros d Hget. apply Hd. rewrite <- Hjoin.
      destruct t as [|d' t']; [done|]. by destruct ts.
  - split; [|done].
    apply Forall_cons in IHno as [Ht Hts]. constructor; [|done].
    intros [|i] Hb; [|by apply (Ht i)].
    destruct Hb as [[= ->] Hd].
    apply rejected_colon in E as (d & s' & -> & Hsep).
    apply split_by_head in Es as [t' ->]; [|by apply no_match_separator].
    by apply (Hd d).
Qed.

End Delimiter.

(** C2, as amended: [load_options] splits the option string with
    [re_split re_delim], and the tokens [ts] of a string [s] are
    characterised by the look-ahead alone: joined with colons they give
    [s] back, no token contains a colon that is not immediately followed
    by a backslash, pipe or forward slash, and no token but the first
    begins with one of these three characters.  So a colon is kept inside
    a token exactly when one of the three characters follows it, and every
    other colon is a token boundary, whatever precedes it. *)
Theorem re_delim_split_rule (s : string) (ts : list string) :
  re_split re_delim s = ts <->
  ts <> []
  /\ Py.join ":" ts = s
  /\ Forall (fun t => forall i, ~ token_boundary t i) ts
  /\ Forall plain_start (tail ts).
Proof.
  split.
  - intros <-. split; [apply split_by_nonempty|].
    split; [apply join_re_split|]. apply re_split_pieces.
  - intros (Hne & <- & Hno & Hp). by apply re_split_join.
Qed.

(** The example of the specification: the colon after the drive letter
    is followed by a backslash and stays inside the value. *)
Example drive_letter_is_kept :
  re_split re_delim "suppressions=C:\path\to\file:other=1"
  = ["suppressions=C:\path\to\file"; "other=1"].
Proof. reflexivity. Qed.

(** C2, as stated, fails: a colon preceded by a backslash and followed by
    an ordinary character is a token boundary of [re_delim], while the
    claimed rule, with the backslash as escape marker, keeps it inside the
    token. *)
Lemma escaped_colon_is_split :
  re_split re_delim "a\:b" = ["a\"; "b"]
  /\ claimed_split "\" "a\:b" = ["a\:b"]
  /\ re_split re_delim "a\:b" <> claimed_split "\" "a\:b".
Proof. split; [reflexivity|]. split; [reflexivity|]. discriminate. Qed.

(** ** [load_options] *)

Section LoaderFacts.
Context `{OsPath}.

(** The four ways an iteration of the loop can go. *)
Lemma load_option_cases key t st :
  (exists n v x, Py.str_split "=" t = [n; v]
      /\ check_suppressions n v = Ok x
      /\ load_option key t st = (set_option n x st, Ok tt))
  \/ (exists v, Py.str_split "=" t = ["suppressions"; v]
      /\ isfile (abspath (expanduser v)) = false
      /\ load_option key t st = (st, Raise IOError))
  \/ ((forall n v, Py.str_split "=" t <> [n; v])
      /\ load_option key t st = (warn_malformed key st, Ok tt)).
Proof.
  unfold load_option, try_option.
  destruct (Py.str_split "=" t) as [|n [|v [|w l]]] eqn:Es; simpl;
    try (right; right; split; [congruence|done]).
  unfold check_suppressions.
  destruct (String.eqb_spec n "suppressions") as [->|Hn].
  - destruct (isfile (abspath (expanduser v))) eqn:Ef; simpl.
    + left. exists "suppressions", v, (abspath (expanduser v)).
      unfold check_suppressions. simpl. by rewrite Ef.
    + right; left. eauto.
  - left. exists n, v, v. unfold check_suppressions.
    by destruct (String.eqb_spec n "suppressions").
Qed.

Lemma check_suppressions_Ok n v x :
  check_suppressions n v = Ok x ->
  (n = "suppressions" /\ x = abspath (expanduser v) /\ isfile x = true)
  \/ (n <> "suppressions" /\ x = v).
Proof.
  unfold check_suppressions.
  destruct (String.eqb_spec n "suppressions") as [->|Hn].
  - destruct (isfile _) eqn:Ef; simpl; [|done]. intros [= <-]. by left.
  - intros [= <-]. by right.
Qed.

Lemma check_suppressions_Raise n v e :
  check_suppressions n v = Raise e ->
  n = "suppressions" /\ isfile (abspath (expanduser v)) = false /\ e = IOError.
Proof.
  unfold check_suppressions.
  destruct (String.eqb_spec n "suppressions") as [->|Hn]; [|done].
  destruct (isfile _) eqn:Ef; simpl; [done|]. by intros [= <-].
Qed.

Lemma load_tokens_app key ts1 ts2 st :
  load_tokens key (ts1 ++ ts2) st =
    match load_tokens key ts1 st with
    | (st', Ok _) => load_tokens key ts2 st'
    | (st', Raise e) => (st', Raise e)
    end.
Proof.
  revert st. induction ts1 as [|t ts1 IH]; intros st; [done|].
  simpl. destruct (load_option key t st) as [st' [[]|e]]; [apply IH|done].
Qed.

(** The loop raises nothing but [IOError]. *)
Lemma load_tokens_result key ts st :
  (load_tokens key ts st).2 = Ok tt \/ (load_tokens key ts st).2 = Raise IOError.
Proof.
  revert st. induction ts as [|t ts IH]; intros st; [by left|].
  simpl.
  destruct (load_option_cases key t st)
    as [(n & v & x & _ & _ & ->)|[(v & _ & _ & ->)|[_ ->]]]; auto.
Qed.

(** The loop raises [IOError] exactly when some token names the
    suppressions option with a file that does not exist. *)
Lemma load_tokens_IOError key ts st :
  (load_tokens key ts st).2 = Raise IOError <->
  exists t v, t ∈ ts /\ Py.str_split "=" t = ["suppressions"; v]
              /\ isfile (abspath (expanduser v)) = false.
Proof.
  revert st. induction ts as [|t ts IH]; intros st.
  { simpl. split; [done|]. intros (t & v & Hin & _). by apply elem_of_nil in Hin. }
  simpl.
  destruct (load_option_cases key t st)
    as [(n & v & x & Es & Hc & ->)|[(v & Es & Hf & ->)|[Hmal ->]]].
  - rewrite IH. split.
    + intros (t' & v' & Hin & Hrest). exists t', v'. split; [by right|done].
    + intros (t' & v' & Hin & Es' & Hf).
      apply elem_of_cons in Hin as [->|Hin]; [|by eauto].
      rewrite Es in Es'. simplify_eq.
      apply check_suppressions_Ok in Hc as [(_ & -> & Hx)|[? _]]; congruence.
  - simpl. split; [|done]. intros _. exists t, v. split; [by left|done].
  - rewrite IH. split.
    + intros (t' & v' & Hin & Hrest). exists t', v'. split; [by right|done].
    + intros (t' & v' & Hin & Es' & Hf).
      apply elem_of_cons in Hin as [->|Hin]; [|by eauto].
      by destruct (Hmal _ _ Es').
Qed.

(** After a run without exception, the value stored under a name is the
    checked value of a token with that name, or what was stored before
    if no token has it. *)
Lemma load_tokens_lookup key ts st st' name :
  load_tokens key ts st = (st', Ok tt) ->
  (_options (ls_self st') !! name = _options (ls_self st) !! name
    /\ forall t v, t ∈ ts -> Py.str_split "=" t <> [name; v])
  \/ (exists t v x, t ∈ ts /\ Py.str_split "=" t = [name; v]
        /\ check_suppressions name v = Ok x
        /\ _options (ls_self st') !! name = Some x).
Proof.
  revert st. induction ts as [|t ts IH]; intros st.
  { simpl. intros [= <-]. left. split; [done|]. intros t v Hin. by apply elem_of_nil in Hin. }
  simpl.
  destruct (load_option_cases key t st)
    as [(n & v & x & Es & Hc & ->)|[(v & Es & Hf & ->)|[Hmal ->]]]; [| done |].
  - intros Hrest. destruct (IH _ Hrest) as [[Hsame Hnone]|(t' & v' & x' & Hin & Hrest')].
    + destruct (decide (n = name)) as [->|Hne].
      * right. exists t, v, x. split; [by left|]. split; [done|]. split; [done|].
        rewrite Hsame. simpl. by rewrite lookup_insert_eq.
      * left. split.
        { rewrite Hsame. simpl. by rewrite lookup_insert_ne. }
        intros t' v' Hin. apply elem_of_cons in Hin as [->|Hin]; [congruence|eauto].
    + right. exists t', v', x'. split; [by right|done].
  - intros Hrest. destruct (IH _ Hrest) as [[Hsame Hnone]|(t' & v' & x' & Hin & Hrest')].
    + left. split; [by rewrite Hsame|].
      intros t' v' Hin. apply elem_of_cons in Hin as [->|Hin]; [apply Hmal|eauto].
    + right. exists t', v', x'. split; [by right|done].
Qed.

End LoaderFacts.

(** Line 40: the tokens [load_options] iterates over are those of
    [re_delim]. *)
Lemma load_options_tokens `{OsPath}
    (env : gmap string string) (key raw : string) (st : loader_state) :
  env !! key = Some raw -> Py.contains " " raw = false ->
  load_options env key st = load_tokens key (re_split re_delim raw) st.
Proof. intros Henv Hsp. unfold load_options. by rewrite Henv, Hsp. Qed.

(** C7: for an option string [raw] without spaces, [load_options] raises
    [IOError], and nothing else, exactly when some token names the
    suppressions option with a value whose normalized path
    [abspath (expanduser v)] is not an existing file; such a token is
    never skipped as malformed.  When no exception is raised and a
    suppressions token is present, the value stored under [suppressions]
    is the normalized path of such a token, and that path is an existing
    file. *)
Theorem suppressions_validated `{OsPath}
    (env : gmap string string) (key raw : string) (st : loader_state) :
  env !! key = Some raw ->
  Py.contains " " raw = false ->
  ((load_options env key st).2 = Raise IOError <->
     exists t v, t ∈ re_split re_delim raw
       /\ Py.str_split "=" t = ["suppressions"; v]
       /\ isfile (abspath (expanduser v)) = false)
  /\ ((load_options env key st).2 = Ok tt
      \/ (load_options env key st).2 = Raise IOError)
  /\ ((load_options env key st).2 = Ok tt ->
      (exists t v, t ∈ re_split re_delim raw
         /\ Py.str_split "=" t = ["suppressions"; v]) ->
      exists t v, t ∈ re_split re_delim raw
        /\ Py.str_split "=" t = ["suppressions"; v]
        /\ _options (ls_self (load_options env key st).1) !! "suppressions"
           = Some (abspath (expanduser v))
        /\ isfile (abspath (expanduser v)) = true).
Proof.
  intros Henv Hsp. unfold load_options. rewrite Henv, Hsp.
  split; [apply load_tokens_IOError|]. split; [apply load_tokens_result|].
  intros Hok (t & v & Hin & Es).
  destruct (load_tokens key (re_split re_delim raw) st) as [st' r] eqn:El.
  simpl in Hok. subst r.
  destruct (load_tokens_lookup _ _ _ _ "suppressions" El)
    as [[_ Hnone]|(t' & v' & x & Hin' & Es' & Hc & Hl)].
  - by destruct (Hnone t v Hin).
  - apply check_suppressions_Ok in Hc as [(_ & -> & Hx)|[? _]]; [|done].
    exists t', v'. simpl. done.
Qed.

Lemma suppressions_validated_witness :
  let env : gmap string string :=
    {[ "LSAN_OPTIONS" := "suppressions=/etc/lsan.supp:max_leaks=2" ]} in
  env !! "LSAN_OPTIONS" = Some "suppressions=/etc/lsan.supp:max_leaks=2"
  /\ Py.contains " " "suppressions=/etc/lsan.supp:max_leaks=2" = false
  /\ ((@load_options example_os env "LSAN_OPTIONS" fresh).2 = Ok tt
      \/ (@load_options example_os env "LSAN_OPTIONS" fresh).2 = Raise IOError).
Proof.
  intros env.
  assert (env !! "LSAN_OPTIONS" = Some "suppressions=/etc/lsan.supp:max_leaks=2")
    as Henv by (vm_compute; reflexivity).
  assert (Py.contains " " "suppressions=/etc/lsan.supp:max_leaks=2" = false)
    as Hsp by (vm_compute; reflexivity).
  split; [exact Henv|]. split; [exact Hsp|].
  exact (proj1 (proj2 (@suppressions_validated example_os env "LSAN_OPTIONS" _
                         fresh Henv Hsp))).
Defined.

(** C8, as amended: when the key is present, [load_options] fails with
    [AssertionError] exactly when the value contains a space character,
    and then leaves the object and the log untouched. *)
Theorem load_options_rejects_spaces `{OsPath}
    (env : gmap string string) (key raw : string) (st : loader_state) :
  env !! key = Some raw ->
  ((load_options env key st).2 = Raise AssertionError <->
     Py.contains " " raw = true)
  /\ (Py.contains " " raw = true ->
      load_options env key st = (st, Raise AssertionError)).
Proof.
  intros Henv. unfold load_options. rewrite Henv.
  destruct (Py.contains " " raw) eqn:Hsp; simpl; [done|].
  split; [|done]. split; [|done]. intros Hr.
  destruct (load_tokens_result key (re_split re_delim raw) st); congruence.
Qed.

Lemma load_options_rejects_spaces_witness :
  let env : gmap string string := {[ "ASAN_OPTIONS" := "detect_leaks=1 symbolize=0" ]} in
  env !! "ASAN_OPTIONS" = Some "detect_leaks=1 symbolize=0"
  /\ @load_options example_os env "ASAN_OPTIONS" fresh = (fresh, Raise AssertionError).
Proof.
  intros env.
  assert (env !! "ASAN_OPTIONS" = Some "detect_leaks=1 symbolize=0")
    as Henv by (vm_compute; reflexivity).
  split; [exact Henv|].
  apply (@load_options_rejects_spaces example_os env "ASAN_OPTIONS" _ fresh Henv).
  vm_compute; reflexivity.
Defined.

(** C8, as stated, fails: a tab is whitespace, and an option string that
    contains one is loaded without any exception; the tab ends up in the
    stored value. *)
Lemma tab_is_accepted :
  let raw := "detect_leaks=1" +:+ String tab "" in
  let env : gmap string string := {[ "ASAN_OPTIONS" := raw ]} in
  Ascii.is_space tab = true
  /\ Py.contains tab raw = true
  /\ (@load_options example_os env "ASAN_OPTIONS" fresh).2 = Ok tt
  /\ _options (ls_self (@load_options example_os env "ASAN_OPTIONS" fresh).1)
       !! "detect_leaks" = Some (String "1" (String tab "")).
Proof. repeat split; vm_compute; reflexivity. Qed.

(** C10: when the tokens of the option string are [ts1 ++ t :: ts2], [t]
    names the suppressions option with a file that does not exist and no
    token of [ts1] does, [load_options] raises [IOError] and leaves the
    object in the state reached after loading [ts1]: every well-formed
    token [name=value] of [ts1] has left a value stored under [name], that
    of a token of [ts1] with this name.  Nothing is rolled back. *)
Theorem load_not_atomic `{OsPath}
    (env : gmap string string) (key raw : string) (st : loader_state)
    (ts1 ts2 : list string) (t v : string) :
  env !! key = Some raw ->
  Py.contains " " raw = false ->
  re_split re_delim raw = ts1 ++ t :: ts2 ->
  Py.str_split "=" t = ["suppressions"; v] ->
  isfile (abspath (expanduser v)) = false ->
  (forall t' v', t' ∈ ts1 -> Py.str_split "=" t' = ["suppressions"; v'] ->
     isfile (abspath (expanduser v')) = true) ->
  exists st1,
    load_options env key st = (st1, Raise IOError)
    /\ load_tokens key ts1 st = (st1, Ok tt)
    /\ forall t0 name value, t0 ∈ ts1 -> Py.str_split "=" t0 = [name; value] ->
         exists t0' value' x, t0' ∈ ts1
           /\ Py.str_split "=" t0' = [name; value']
           /\ check_suppressions name value' = Ok x
           /\ _options (ls_self st1) !! name = Some x.
Proof.
  intros Henv Hsp Hts Ht Hf Hpre.
  unfold load_options. rewrite Henv, Hsp, Hts, load_tokens_app.
  destruct (load_tokens key ts1 st) as [st1 r] eqn:E1.
  assert (r = Ok tt) as ->.
  { destruct (load_tokens_result key ts1 st) as [Hr|Hr];
      rewrite E1 in Hr; simpl in Hr; [done|].
    assert ((load_tokens key ts1 st).2 = Raise IOError) as Hio by by rewrite E1.
    apply load_tokens_IOError in Hio as (t' & v' & Hin & Es & Hf').
    rewrite (Hpre t' v' Hin Es) in Hf'. done. }
  exists st1. split.
  - simpl.
    destruct (load_option_cases key t st1)
      as [(n & v0 & x & Es & Hc & ->)|[(v0 & Es & Hf0 & ->)|[Hmal ->]]].
    + rewrite Ht in Es. simplify_eq.
      apply check_suppressions_Ok in Hc as [(_ & -> & Hx)|[? _]]; congruence.
    + done.
    + by destruct (Hmal _ _ Ht).
  - split; [done|]. intros t0 name value Hin Es.
    destruct (load_tokens_lookup _ _ _ _ name E1)
      as [[_ Hnone]|(t' & v' & x & Hin' & Es' & Hc & Hl)].
    + by destruct (Hnone t0 value Hin).
    + eauto 10.
Qed.

Lemma load_not_atomic_witness :
  let raw := "detect_leaks=1:suppressions=/missing.supp:symbolize=0" in
  let env : gmap string string := {[ "ASAN_OPTIONS" := raw ]} in
  exists st1,
    @load_options example_os env "ASAN_OPTIONS" fresh = (st1, Raise IOError)
    /\ @load_tokens example_os "ASAN_OPTIONS" ["detect_leaks=1"] fresh = (st1, Ok tt)
    /\ forall t0 name value, t0 ∈ ["detect_leaks=1"] ->
         Py.str_split "=" t0 = [name; value] ->
         exists t0' value' x, t0' ∈ ["detect_leaks=1"]
           /\ Py.str_split "=" t0' = [name; value']
           /\ @check_suppressions example_os name value' = Ok x
           /\ _options (ls_self st1) !! name = Some x.
Proof.
  intros raw env.
  apply (@load_not_atomic example_os env "ASAN_OPTIONS" raw fresh
           ["detect_leaks=1"] ["symbolize=0"] "suppressions=/missing.supp"
           "/missing.supp").
  - vm_compute; reflexivity.
  - vm_compute; reflexivity.
  - vm_compute; reflexivity.
  - vm_compute; reflexivity.
  - vm_compute; reflexivity.
  - intros t' v' Hin Es. apply list_elem_of_singleton in Hin as ->.
    vm_compute in Es. discriminate.
Defined.

(** The partially loaded object of the example above: [detect_leaks] is
    stored although the call raised. *)
Example partial_load_example :
  let raw := "detect_leaks=1:suppressions=/missing.supp:symbolize=0" in
  let env : gmap string string := {[ "ASAN_OPTIONS" := raw ]} in
  (@load_options example_os env "ASAN_OPTIONS" fresh).2 = Raise IOError
  /\ _options (ls_self (@load_options example_os env "ASAN_OPTIONS" fresh).1)
       !! "detect_leaks" = Some "1"
  /\ _options (ls_self (@load_options example_os env "ASAN_OPTIONS" fresh).1)
       !! "symbolize" = None.
Proof. repeat split; vm_compute; reflexivity. Qed.

(** ** Serialization *)

Section SerializeFacts.
Context `{OsPath}.

Lemma get_contains i s c : String.get i s = Some c -> Py.contains c s = true.
Proof.
  revert i. induction s as [|d s IH]; intros [|i]; simpl; try done.
  - intros [= ->]. by rewrite Ascii.eqb_refl.
  - intros Hg. rewrite (IH _ Hg). apply orb_true_r.
Qed.

Lemma token_boundary_app_inv pre post i :
  token_boundary (pre +:+ post) i ->
  Py.contains ":" pre = true \/ exists j, token_boundary post j.
Proof.
  revert i. induction pre as [|c pre IH]; intros i Hb; [by eauto|].
  destruct i as [|i].
  - destruct Hb as [[= ->] _]. by left.
  - rewrite app_String in Hb. apply token_boundary_S, IH in Hb as [Hc|?]; [|by right].
    left. simpl. rewrite Hc. apply orb_true_r.
Qed.

Lemma item_no_boundary k v :
  Py.contains ":" k = false -> (forall i, ~ token_boundary v i) ->
  forall i, ~ token_boundary (Py.join "=" [k; v]) i.
Proof.
  intros Hk Hv i Hb. rewrite join_cons in Hb. simpl in Hb.
  apply token_boundary_app_inv in Hb as [?|[j Hb]]; [congruence|].
  destruct j as [|j]; [by destruct Hb|]. by apply (Hv j).
Qed.

Lemma item_plain_start k v :
  plain_start k -> plain_start (Py.join "=" [k; v]).
Proof.
  intros Hp. rewrite join_cons. destruct k as [|c k]; [|done].
  intros d [= <-] [?|[?|?]]; discriminate.
Qed.

Lemma starts_with_char_contains c s :
  Py.starts_with_char c s = true -> Py.contains c s = true.
Proof.
  destruct s as [|d s]; simpl; [done|].
  intros ->%Ascii.eqb_eq. by rewrite Ascii.eqb_refl.
Qed.

Lemma contains_false_suffix c s pre post r :
  Py.contains c s = false -> s = pre +:+ post -> post <> "" ->
  Py.starts_with_char c (post +:+ r) = false.
Proof.
  intros Hs -> Hne. rewrite contains_app in Hs.
  apply orb_false_iff in Hs as [_ Hs].
  destruct post as [|d post]; [done|]. rewrite app_String. simpl in *.
  apply orb_false_iff in Hs as [Hs _]. by rewrite Ascii.eqb_sym.
Qed.

(** [(k + "=" + v).split("=")] is [[k, v]] when neither contains ["="]. *)
Lemma str_split_item k v :
  Py.contains "=" k = false -> Py.contains "=" v = false ->
  Py.str_split "=" (Py.join "=" [k; v]) = [k; v].
Proof.
  intros Hk Hv. rewrite join_cons. simpl. unfold Py.str_split.
  rewrite split_by_app.
  - change ("=" +:+ v) with (String "=" v).
    rewrite split_by_cons. simpl.
    rewrite split_by_none, app_empty_r; [done|].
    intros pre post ->.
    destruct (Py.starts_with_char "=" post) eqn:E; [|done].
    apply starts_with_char_contains in E.
    rewrite contains_app, E in Hv. by rewrite orb_true_r in Hv.
  - intros pre post Hk' Hne.
    exact (contains_false_suffix "=" k pre post _ Hk Hk' Hne).
Qed.

Lemma contains_join_item c k v :
  Py.contains c k = false -> Py.contains c v = false -> c <> "="%char ->
  Py.contains c (Py.join "=" [k; v]) = false.
Proof.
  intros Hk Hv Hc. rewrite join_cons. simpl Py.join.
  rewrite !contains_app, Hk, Hv. simpl.
  rewrite !orb_false_r. by apply Ascii.eqb_neq.
Qed.

Lemma contains_join_colon c ts :
  Forall (fun t => Py.contains c t = false) ts -> c <> ":"%char ->
  Py.contains c (Py.join ":" ts) = false.
Proof.
  intros Hts Hc. induction Hts as [|t ts Ht Hts IH]; [done|].
  destruct ts as [|t2 ts]; [done|].
  rewrite join_cons, !contains_app, Ht, IH. simpl.
  rewrite !orb_false_r. by apply Ascii.eqb_neq.
Qed.

(** Loading the tokens of a list of items stores the items, later ones
    over earlier ones. *)
Lemma load_tokens_items key items st :
  Forall (fun kv => Py.contains "=" kv.1 = false
                    /\ Py.contains "=" kv.2 = false
                    /\ suppressions_ok kv.1 kv.2) items ->
  load_tokens key (map (fun kv => Py.join "=" [kv.1; kv.2]) items) st =
    ({| ls_self := {| _options :=
                        foldl (fun m kv => <[kv.1 := kv.2]> m)
                              (_options (ls_self st)) items |};
        ls_log := ls_log st |}, Ok tt).
Proof.
  intros Hitems. revert st.
  induction Hitems as [|[k v] items (Hk & Hv & Hs) _ IH]; intros st.
  { by destruct st as [[?] ?]. }
  simpl in Hk, Hv, Hs. rewrite map_cons. cbn [load_tokens fst snd].
  unfold load_option, try_option.
  rewrite str_split_item by done. cbn [Py.unpack2].
  assert (check_suppressions k v = Ok v) as ->.
  { unfold check_suppressions.
    destruct (String.eqb_spec k "suppressions") as [Hk'|_]; [|done].
    destruct (Hs Hk') as [-> ->]. done. }
  by rewrite IH.
Qed.

Lemma foldl_insert_list_to_map (items : list (string * string))
    (m : gmap string string) :
  NoDup items.*1 ->
  foldl (fun m kv => <[kv.1 := kv.2]> m) m items = list_to_map items ∪ m.
Proof.
  revert m. induction items as [|[k v] items IH]; intros m Hnd.
  { simpl. by rewrite (left_id_L ∅ (∪)). }
  simpl in *. apply NoDup_cons in Hnd as [Hk Hnd].
  rewrite IH by done.
  rewrite <- insert_union_l. symmetry. apply insert_union_r.
  by apply not_elem_of_list_to_map_1.
Qed.

(** What [load_options] reads back from the serialization of a list of
    items with distinct, well-formed names and values. *)
Lemma load_serialized key items log :
  items <> [] ->
  NoDup items.*1 ->
  Forall (fun kv => name_ok kv.1 /\ value_ok kv.2 /\ suppressions_ok kv.1 kv.2)
         items ->
  load_options {[ key := serialize_items items ]} key
               {| ls_self := SanitizerConfig_init; ls_log := log |} =
    ({| ls_self := {| _options := list_to_map items |}; ls_log := log |}, Ok tt).
Proof.
  intros Hne Hnd Hok. unfold load_options. rewrite lookup_singleton_eq.
  unfold serialize_items.
  set (tok := fun kv : string * string => Py.join "=" [kv.1; kv.2]).
  assert (Py.contains " " (Py.join ":" (map tok items)) = false) as ->.
  { apply contains_join_colon; [|done].
    apply Forall_map. eapply Forall_impl; [exact Hok|].
    intros [k v] ((_ & _ & _ & Hk & _) & (_ & Hv & _) & _).
    by apply contains_join_item. }
  assert (re_split re_delim (Py.join ":" (map tok items)) = map tok items) as ->.
  { apply re_split_join.
    - by destruct items.
    - apply Forall_map. eapply Forall_impl; [exact Hok|].
      intros [k v] ((_ & Hk & _) & (_ & _ & Hv) & _).
      by apply item_no_boundary.
    - destruct items as [|kv items]; [done|]. simpl.
      apply Forall_cons in Hok as [_ Hok].
      apply Forall_map. eapply Forall_impl; [exact Hok|].
      intros [k v] ((_ & _ & _ & _ & Hk) & _ & _).
      by apply item_plain_start. }
  unfold tok. rewrite load_tokens_items.
  - simpl. rewrite foldl_insert_list_to_map by done.
    by rewrite (right_id_L ∅ (∪)).
  - eapply Forall_impl; [exact Hok|].
    intros [k v] ((_ & _ & Hk & _) & (Hv & _) & Hs). done.
Qed.

(** The serialization of an empty dictionary is the empty string, whose
    only token is malformed. *)
Lemma load_serialized_empty key log :
  load_options {[ key := serialize_items [] ]} key
               {| ls_self := SanitizerConfig_init; ls_log := log |} =
    ({| ls_self := SanitizerConfig_init;
        ls_log := log ++ [WarnMalformedOption key] |}, Ok tt).
Proof. unfold load_options. by rewrite lookup_singleton_eq. Qed.

(** What [add] and [add_all] store comes from a call. *)
Lemma add_lookup key value overwrite self k v :
  _options (add key value overwrite self) !! k = Some v ->
  _options self !! k = Some v \/ (k = key /\ v = value).
Proof.
  unfold add. destruct (_ || _); [|by left]. simpl.
  destruct (decide (key = k)) as [->|Hne].
  - rewrite lookup_insert_eq. intros [= <-]. by right.
  - rewrite lookup_insert_ne by done. by left.
Qed.

Lemma add_all_lookup calls self k v :
  _options (add_all calls self) !! k = Some v ->
  _options self !! k = Some v \/ exists o, (k, v, o) ∈ calls.
Proof.
  revert self. induction calls as [|[[key value] o] calls IH]; intros self; [by left|].
  simpl. intros [Hl|[o' Hin]]%IH.
  - apply add_lookup in Hl as [?|[-> ->]]; [by left|].
    right. exists o. by left.
  - right. exists o'. by right.
Qed.

End SerializeFacts.

Section RoundTrip.
Context `{OsPath}.

Lemma one_token_no_boundary v :
  re_split re_delim v = [v] -> forall i, ~ token_boundary v i.
Proof.
  intros Hv. destruct (re_split_pieces v) as [Hno _].
  rewrite Hv in Hno. inversion Hno; assumption.
Qed.

(** Every entry of a dictionary filled by well-formed [add] calls is
    well formed. *)
Lemma add_all_items_ok calls :
  Forall call_ok calls ->
  Forall (fun kv => name_ok kv.1 /\ value_ok kv.2 /\ suppressions_ok kv.1 kv.2)
         (map_to_list (_options (add_all calls SanitizerConfig_init))).
Proof.
  intros Hcalls. apply Forall_forall. intros [k v] Hin.
  apply elem_of_map_to_list in Hin.
  apply add_all_lookup in Hin as [Hin|[o Hin]].
  { simpl in Hin. by rewrite lookup_empty in Hin. }
  rewrite Forall_forall in Hcalls. exact (Hcalls _ Hin).
Qed.

Lemma load_permuted_items (m : gmap string string) items key log :
  Forall (fun kv => name_ok kv.1 /\ value_ok kv.2 /\ suppressions_ok kv.1 kv.2)
         (map_to_list m) ->
  items ≡ₚ map_to_list m ->
  (load_options {[ key := serialize_items items ]} key
                {| ls_self := SanitizerConfig_init; ls_log := log |}).2 = Ok tt
  /\ _options (ls_self
       (load_options {[ key := serialize_items items ]} key
                     {| ls_self := SanitizerConfig_init; ls_log := log |}).1) = m.
Proof.
  intros Hok Hperm.
  destruct items as [|kv items].
  { rewrite load_serialized_empty. split; [done|]. simpl.
    apply Permutation_nil_l in Hperm. symmetry in Hperm.
    apply map_to_list_empty_iff in Hperm. by rewrite Hperm. }
  rewrite load_serialized; [| done | |].
  - split; [done|]. cbn [fst ls_self _options]. symmetry.
    apply list_to_map_flip. by symmetry.
  - rewrite Hperm. apply NoDup_fst_map_to_list.
  - by rewrite Hperm.
Qed.

End RoundTrip.

(** C1, as amended: let a store be populated only by [add] calls in which
    every name is non-empty, contains no colon, equals sign or space and
    does not begin with a backslash, pipe or slash, every value contains
    no equals sign, no space and no colon other than one immediately
    followed by a backslash, pipe or slash, and a value given for
    [suppressions] is already the normalized path of an existing file.
    Then loading [options] into a fresh object raises nothing and yields
    the same mapping, and so does loading the serialization of the items
    in any other order. *)
Theorem serialize_load_roundtrip `{OsPath}
    (calls : list (string * string * bool)) (key : string)
    (log : list log_event) :
  Forall call_ok calls ->
  let store := add_all calls SanitizerConfig_init in
  let load raw :=
    load_options {[ key := raw ]} key
                 {| ls_self := SanitizerConfig_init; ls_log := log |} in
  ((load (options store)).2 = Ok tt /\ ls_self (load (options store)).1 = store)
  /\ forall items, items ≡ₚ map_to_list (_options store) ->
       (load (serialize_items items)).2 = Ok tt
       /\ ls_self (load (serialize_items items)).1 = store.
Proof.
  intros Hcalls store load.
  assert (forall items, items ≡ₚ map_to_list (_options store) ->
            (load (serialize_items items)).2 = Ok tt
            /\ ls_self (load (serialize_items items)).1 = store) as Hall.
  { intros items Hperm.
    destruct (load_permuted_items (_options store) items key log
                (add_all_items_ok calls Hcalls) Hperm) as [Hr Hm].
    split; [exact Hr|].
    fold (load (serialize_items items)) in Hm.
    destruct (ls_self (load (serialize_items items)).1) as [m'].
    destruct store as [m]. simpl in Hm. by rewrite Hm. }
  split; [|exact Hall]. by apply Hall.
Qed.

Lemma serialize_load_roundtrip_witness :
  let calls := [ ("detect_leaks", "false", false);
                 ("log_path", "'C:\logs\ff'", true);
                 ("detect_leaks", "true", false) ] in
  let store := add_all calls SanitizerConfig_init in
  let load raw :=
    @load_options example_os {[ "ASAN_OPTIONS" := raw ]} "ASAN_OPTIONS" fresh in
  (load (options store)).2 = Ok tt /\ ls_self (load (options store)).1 = store.
Proof.
  intros calls store load.
  refine (proj1 (@serialize_load_roundtrip example_os calls "ASAN_OPTIONS" [] _)).
  repeat constructor; simpl; try discriminate;
    try (intros d [= <-] [?|[?|?]]; discriminate);
    try (apply one_token_no_boundary; reflexivity).
Defined.

(** C1, as stated, fails: a value that contains an equals sign is a
    string, but the token it is serialized into is malformed for
    [load_options], which skips it; the store read back is empty. *)
Lemma equals_sign_breaks_roundtrip :
  let store := add "log_path" "/tmp/a=b" false SanitizerConfig_init in
  let loaded :=
    ls_self (@load_options example_os {[ "ASAN_OPTIONS" := options store ]}
               "ASAN_OPTIONS" fresh).1 in
  options store = "log_path=/tmp/a=b"
  /\ _options store !! "log_path" = Some "/tmp/a=b"
  /\ _options loaded !! "log_path" = None
  /\ loaded <> store.
Proof.
  intros store loaded.
  split; [vm_compute; reflexivity|].
  split; [vm_compute; reflexivity|].
  split; [vm_compute; reflexivity|].
  intros Heq. apply (f_equal (fun c => _options c !! "log_path")) in Heq.
  vm_compute in Heq. discriminate.
Qed.

(** Each restriction of the round trip is needed: a space makes
    [load_options] fail, a colon cuts the value short, a name with an
    equals sign makes the token malformed, a name that begins with a slash
    hides the colon before it, and a suppressions file must exist. *)
Example roundtrip_needs_no_space :
  (@load_options example_os
     {[ "ASAN_OPTIONS" := options (add "k" "a b" false SanitizerConfig_init) ]}
     "ASAN_OPTIONS" fresh).2 = Raise AssertionError.
Proof. vm_compute. reflexivity. Qed.

Example roundtrip_needs_no_colon :
  _options (ls_self (@load_options example_os
     {[ "ASAN_OPTIONS" := options (add "k" "a:b" false SanitizerConfig_init) ]}
     "ASAN_OPTIONS" fresh).1) !! "k" = Some "a".
Proof. vm_compute. reflexivity. Qed.

Example roundtrip_needs_plain_names :
  serialize_items [("a", "1"); ("/b", "2")] = "a=1:/b=2"
  /\ ls_self (@load_options example_os
        {[ "ASAN_OPTIONS" := serialize_items [("a", "1"); ("/b", "2")] ]}
        "ASAN_OPTIONS" fresh).1 = SanitizerConfig_init.
Proof. split; vm_compute; reflexivity. Qed.

Example roundtrip_needs_existing_suppressions :
  (@load_options example_os
     {[ "LSAN_OPTIONS" :=
          options (add "suppressions" "/missing.supp" false SanitizerConfig_init) ]}
     "LSAN_OPTIONS" fresh).2 = Raise IOError.
Proof. vm_compute. reflexivity. Qed.

(** ** [configure_sanitizers] and [prepare_environment] *)

Section EnvironmentFacts.
Context `{OsPath}.

Lemma add_lookup_ne key value overwrite self k :
  key <> k ->
  _options (add key value overwrite self) !! k = _options self !! k.
Proof.
  intros Hne. unfold add. destruct (_ || _); [|done].
  simpl. by rewrite lookup_insert_ne.
Qed.

Lemma add_overwrite key value self :
  _options (add key value true self) !! key = Some value.
Proof. unfold add. rewrite orb_true_r. simpl. apply lookup_insert_eq. Qed.

Lemma asan_adds_log_path log_path self :
  _options (add_all (asan_adds log_path) self) !! "log_path"
  = Some (quoted log_path).
Proof.
  unfold add_all, asan_adds. cbn [foldl fst snd].
  rewrite !add_lookup_ne by done. apply add_overwrite.
Qed.

Lemma ubsan_adds_log_path log_path self :
  _options (add_all (ubsan_adds log_path) self) !! "log_path"
  = Some (quoted log_path).
Proof.
  unfold add_all, ubsan_adds. cbn [foldl fst snd].
  rewrite !add_lookup_ne by done. apply add_overwrite.
Qed.

(** A family that raises nothing assigns the serialization of its
    configuration to its variable and touches nothing else. *)
Lemma configure_family_Ok var adds env log env' log' config :
  configure_family var adds env log = ((env', log'), Ok config) ->
  env' = <[var := options config]> env
  /\ exists loaded, config = add_all adds loaded.
Proof.
  unfold configure_family.
  destruct (load_options env var _) as [st [[]|e]]; [|done].
  intros [= <- _ <-]. eauto.
Qed.

Lemma configure_symbolizer_other target_dir env log name :
  name <> "ASAN_SYMBOLIZER_PATH" ->
  (configure_symbolizer target_dir env log).1 !! name = env !! name.
Proof.
  intros Hne. unfold configure_symbolizer.
  repeat case_match; simpl; try done. by rewrite lookup_insert_ne.
Qed.

(** The shape of the environment [configure_sanitizers] leaves behind. *)
Lemma configure_sanitizers_Ok env target_dir log_path log env' log' :
  configure_sanitizers env target_dir log_path log = ((env', log'), Ok tt) ->
  exists asan lsan ubsan l1 l2 l3,
    asan = add_all (asan_adds log_path) l1
    /\ lsan = add_all lsan_adds l2
    /\ ubsan = add_all (ubsan_adds log_path) l3
    /\ forall name, name <> "ASAN_SYMBOLIZER_PATH" ->
         env' !! name =
           (<["UBSAN_OPTIONS" := options ubsan]>
              (<["LSAN_OPTIONS" := options lsan]>
                 (<["ASAN_OPTIONS" := options asan]> env))) !! name.
Proof.
  unfold configure_sanitizers.
  destruct (configure_family "ASAN_OPTIONS" _ env log)
    as [[env1 log1] [asan|e]] eqn:E1; [|done].
  destruct (configure_family "LSAN_OPTIONS" _ env1 log1)
    as [[env2 log2] [lsan|e]] eqn:E2; [|done].
  destruct (configure_family "UBSAN_OPTIONS" _ env2 log2)
    as [[env3 log3] [ubsan|e]] eqn:E3; [|done].
  apply configure_family_Ok in E1 as [He1 [l1 Hasan]].
  apply configure_family_Ok in E2 as [He2 [l2 Hlsan]].
  apply configure_family_Ok in E3 as [He3 [l3 Hubsan]].
  intros Hs. exists asan, lsan, ubsan, l1, l2, l3. split_and!; try done.
  intros name Hne.
  assert (env' = (configure_symbolizer target_dir env3 log3).1) as ->.
  { destruct (configure_symbolizer target_dir env3 log3). cbn [fst]. congruence. }
  rewrite configure_symbolizer_other by done. by rewrite He3, He2, He1.
Qed.

(** The loop over [env_mod.items()], for a list of items with distinct
    names. *)
Lemma foldl_apply_mod (items : list (string * option string))
    (env : gmap string string) name :
  NoDup items.*1 ->
  foldl apply_mod env items !! name =
    match (list_to_map items : gmap string (option string)) !! name with
    | Some (Some env_value) => Some env_value
    | Some None => None
    | None => env !! name
    end.
Proof.
  revert env. induction items as [|[k ov] items IH]; intros env Hnd; [done|].
  simpl in Hnd. apply NoDup_cons in Hnd as [Hk Hnd].
  cbn [foldl]. rewrite IH by done. rewrite list_to_map_cons.
  destruct (decide (k = name)) as [->|Hne].
  - rewrite lookup_insert_eq.
    rewrite (not_elem_of_list_to_map_1 items name Hk).
    unfold apply_mod. simpl. destruct ov as [x|].
    + by rewrite lookup_insert_eq.
    + case_bool_decide as Hin; [by rewrite lookup_delete_eq|].
      destruct (env !! name) eqn:E; [|done]. destruct Hin. eauto.
  - rewrite lookup_insert_ne by done.
    destruct (list_to_map items !! name) as [[x|]|]; try done.
    unfold apply_mod. simpl. destruct ov as [x|].
    + by rewrite lookup_insert_ne.
    + case_bool_decide; [by rewrite lookup_delete_ne|done].
Qed.

(** The two assignment loops of lines 279-296. *)
Lemma foldl_assign_notin (kvs : list (string * string)) env name :
  name ∉ kvs.*1 -> foldl assign env kvs !! name = env !! name.
Proof.
  revert env. induction kvs as [|[k v] kvs IH]; intros env Hn; [done|].
  apply not_elem_of_cons in Hn as [Hne Hn]. cbn [foldl].
  rewrite IH by done. unfold assign. by rewrite lookup_insert_ne.
Qed.

Lemma foldl_assign_in (kvs : list (string * string)) env name value :
  NoDup kvs.*1 -> (name, value) ∈ kvs ->
  foldl assign env kvs !! name = Some value.
Proof.
  revert env. induction kvs as [|[k v] kvs IH]; intros env Hnd Hin.
  { by apply elem_of_nil in Hin. }
  apply NoDup_cons in Hnd as [Hk Hnd]. cbn [foldl].
  apply elem_of_cons in Hin as [[= -> ->]|Hin]; [|by apply IH].
  rewrite foldl_assign_notin by done. unfold assign. apply lookup_insert_eq.
Qed.

Lemma foldl_assign_if_absent_notin (kvs : list (string * string)) env name :
  name ∉ kvs.*1 -> foldl assign_if_absent env kvs !! name = env !! name.
Proof.
  revert env. induction kvs as [|[k v] kvs IH]; intros env Hn; [done|].
  apply not_elem_of_cons in Hn as [Hne Hn]. cbn [foldl].
  rewrite IH by done. unfold assign_if_absent. cbn [fst snd].
  destruct (env !! k); [done|]. by rewrite lookup_insert_ne.
Qed.

Lemma foldl_assign_if_absent_in (kvs : list (string * string)) env name value :
  NoDup kvs.*1 -> (name, value) ∈ kvs ->
  foldl assign_if_absent env kvs !! name = Some (default value (env !! name)).
Proof.
  revert env. induction kvs as [|[k v] kvs IH]; intros env Hnd Hin.
  { by apply elem_of_nil in Hin. }
  apply NoDup_cons in Hnd as [Hk Hnd]. cbn [foldl].
  apply elem_of_cons in Hin as [[= -> ->]|Hin].
  - rewrite foldl_assign_if_absent_notin by done.
    unfold assign_if_absent. cbn [fst snd].
    destruct (env !! k) eqn:E; [by rewrite E|]. by rewrite lookup_insert_eq.
  - rewrite IH by done. unfold assign_if_absent. cbn [fst snd].
    assert (k <> name) as Hne.
    { intros ->. apply Hk. by apply (list_elem_of_fmap_2 fst _ (name, value)). }
    destruct (env !! k); [done|]. by rewrite lookup_insert_ne.
Qed.

Lemma toggle_names_NoDup :
  NoDup (fixed_toggles.*1 ++ default_toggles.*1).
Proof. apply (bool_decide_unpack _). by vm_compute. Qed.

Lemma toggle_names_not_sanitizer name :
  name ∈ fixed_toggles.*1 ++ default_toggles.*1 ->
  name ∉ ["ASAN_OPTIONS"; "LSAN_OPTIONS"; "UBSAN_OPTIONS"; "ASAN_SYMBOLIZER_PATH"].
Proof.
  intros Hin.
  assert (Forall (fun x : string =>
                    x ∉ ["ASAN_OPTIONS"; "LSAN_OPTIONS"; "UBSAN_OPTIONS";
                         "ASAN_SYMBOLIZER_PATH"])
                 (fixed_toggles.*1 ++ default_toggles.*1)) as Hall.
  { apply (bool_decide_unpack _). by vm_compute. }
  rewrite Forall_forall in Hall. by apply Hall.
Qed.

(** [prepare_environment] on a variable that [configure_sanitizers]
    leaves alone. *)
Lemma prepare_environment_lookup environ target_dir sanitizer_log env_mod
    log log' env name :
  prepare_environment environ target_dir sanitizer_log env_mod log
    = (log', Ok env) ->
  name ∉ ["ASAN_OPTIONS"; "LSAN_OPTIONS"; "UBSAN_OPTIONS"; "ASAN_SYMBOLIZER_PATH"] ->
  env !! name =
    after_env_mod env_mod name
      (foldl assign_if_absent (foldl assign environ fixed_toggles)
             default_toggles !! name).
Proof.
  unfold prepare_environment. intros Hp Hname.
  apply not_elem_of_cons in Hname as [Hn1 Hname].
  apply not_elem_of_cons in Hname as [Hn2 Hname].
  apply not_elem_of_cons in Hname as [Hn3 Hname].
  apply not_elem_of_cons in Hname as [Hn4 _].
  set (env0 := foldl assign_if_absent (foldl assign environ fixed_toggles)
                     default_toggles) in *.
  destruct (configure_sanitizers env0 _ _ _) as [[env1 log1] [[]|e]] eqn:Ec; [|done].
  apply configure_sanitizers_Ok in Ec
    as (asan & lsan & ubsan & l1 & l2 & l3 & _ & _ & _ & Hl).
  assert (env1 !! name = env0 !! name) as Hsame.
  { rewrite Hl by done. by rewrite !lookup_insert_ne. }
  destruct env_mod as [env_mod|].
  - assert (env = foldl apply_mod env1 (map_to_list env_mod)) as -> by congruence.
    unfold after_env_mod. rewrite foldl_apply_mod by apply NoDup_fst_map_to_list.
    by rewrite list_to_map_to_list, Hsame.
  - assert (env = env1) as -> by congruence. done.
Qed.

End EnvironmentFacts.

(** The rows of the two tables, as [prepare_environment] leaves them. *)
Lemma toggle_tables_lookup `{OsPath}
    (environ : gmap string string) (target_dir sanitizer_log : string)
    (env_mod : option (gmap string (option string)))
    (log log' : list log_event) (env : gmap string string) :
  prepare_environment environ target_dir sanitizer_log env_mod log
    = (log', Ok env) ->
  (forall name value, (name, value) ∈ fixed_toggles ->
     env !! name = after_env_mod env_mod name (Some value))
  /\ (forall name value, (name, value) ∈ default_toggles ->
        env !! name =
          after_env_mod env_mod name (Some (default value (environ !! name))))
  /\ default_toggles.*1 = ["MOZ_SKIA_DISABLE_ASSERTS"; "RUST_BACKTRACE"].
Proof.
  intros Hp. pose proof toggle_names_NoDup as Hnd.
  apply NoDup_app in Hnd as (Hndf & Hdisj & Hndd).
  split_and!; [| |reflexivity].
  - intros name value Hin.
    assert (name ∈ fixed_toggles.*1) as Hname
      by apply (list_elem_of_fmap_2 fst _ (name, value) Hin).
    rewrite (prepare_environment_lookup _ _ _ _ _ _ _ name Hp).
    + f_equal. rewrite foldl_assign_if_absent_notin by by apply Hdisj.
      by apply foldl_assign_in.
    + apply toggle_names_not_sanitizer, elem_of_app. by left.
  - intros name value Hin.
    assert (name ∈ default_toggles.*1) as Hname
      by apply (list_elem_of_fmap_2 fst _ (name, value) Hin).
    rewrite (prepare_environment_lookup _ _ _ _ _ _ _ name Hp).
    + f_equal. rewrite (foldl_assign_if_absent_in _ _ name value) by done.
      rewrite foldl_assign_notin; [done|].
      intros Hf. by apply (Hdisj name).
    + apply toggle_names_not_sanitizer, elem_of_app. by right.
Qed.

(** C9: whenever [prepare_environment] returns an environment, [G_SLICE]
    is [always-malloc], [MOZ_CC_RUN_DURING_SHUTDOWN], [MOZ_CRASHREPORTER],
    [MOZ_CRASHREPORTER_NO_REPORT], [MOZ_DISABLE_CONTENT_SANDBOX],
    [MOZ_DISABLE_GMP_SANDBOX], [MOZ_DISABLE_GPU_SANDBOX],
    [MOZ_DISABLE_NPAPI_SANDBOX] and [XRE_NO_WINDOWS_CRASH_DIALOG] are [1],
    [MOZ_GDB_SLEEP] is [0] and [XPCOM_DEBUG_BREAK] is [warn], whatever the
    process environment [environ] held for them, while
    [MOZ_SKIA_DISABLE_ASSERTS] and [RUST_BACKTRACE] hold the value
    [environ] had for them, or [1] and [full] when it had none; the only
    other influence on these thirteen variables is an explicit entry of
    the caller's [env_mod], applied last. *)
Theorem fixed_toggles_set `{OsPath}
    (environ : gmap string string) (target_dir sanitizer_log : string)
    (env_mod : option (gmap string (option string)))
    (log log' : list log_event) (env : gmap string string) :
  prepare_environment environ target_dir sanitizer_log env_mod log
    = (log', Ok env) ->
  let forced name value :=
    env !! name = after_env_mod env_mod name (Some value) in
  let kept_or name value :=
    env !! name
    = after_env_mod env_mod name (Some (default value (environ !! name))) in
  forced "G_SLICE" "always-malloc"
  /\ forced "MOZ_CC_RUN_DURING_SHUTDOWN" "1"
  /\ forced "MOZ_CRASHREPORTER" "1"
  /\ forced "MOZ_CRASHREPORTER_NO_REPORT" "1"
  /\ forced "MOZ_DISABLE_CONTENT_SANDBOX" "1"
  /\ forced "MOZ_DISABLE_GMP_SANDBOX" "1"
  /\ forced "MOZ_DISABLE_GPU_SANDBOX" "1"
  /\ forced "MOZ_DISABLE_NPAPI_SANDBOX" "1"
  /\ forced "MOZ_GDB_SLEEP" "0"
  /\ forced "XRE_NO_WINDOWS_CRASH_DIALOG" "1"
  /\ forced "XPCOM_DEBUG_BREAK" "warn"
  /\ kept_or "MOZ_SKIA_DISABLE_ASSERTS" "1"
  /\ kept_or "RUST_BACKTRACE" "full".
Proof.
  intros Hp forced kept_or.
  destruct (toggle_tables_lookup _ _ _ _ _ _ _ Hp) as (Hf & Hd & _).
  unfold forced, kept_or.
  split_and!.
  1-11: apply Hf; apply (bool_decide_unpack _); vm_compute; exact I.
  all: apply Hd; apply (bool_decide_unpack _); vm_compute; exact I.
Qed.

Lemma fixed_toggles_set_witness :
  exists log' env,
    @prepare_environment example_os example_environ "/opt/firefox"
      "/tmp/ffprof/asan" None [] = (log', Ok env)
    /\ env !! "G_SLICE" = Some "always-malloc"
    /\ env !! "RUST_BACKTRACE" = Some "1"
    /\ env !! "MOZ_SKIA_DISABLE_ASSERTS" = Some "1".
Proof.
  assert (is_ok (@prepare_environment example_os example_environ "/opt/firefox"
                   "/tmp/ffprof/asan" None []).2 = true) as Hok
    by (vm_compute; reflexivity).
  destruct (@prepare_environment example_os example_environ "/opt/firefox"
              "/tmp/ffprof/asan" None []) as [log' [env|e]] eqn:Hp.
  - exists log', env. split; [reflexivity|].
    pose proof (@fixed_toggles_set example_os _ _ _ _ _ _ _ Hp) as Hall.
    cbv zeta in Hall.
    destruct Hall as (Hg & _ & _ & _ & _ & _ & _ & _ & _ & _ & _ & Hs & Hr).
    split; [exact Hg|]. split; [exact Hr|exact Hs].
  - discriminate Hok.
Defined.

(** C3, as stated, fails: the [log_path] that [load_options] reads out of
    the resulting [ASAN_OPTIONS] and [UBSAN_OPTIONS] is not the prefix
    passed in but the prefix wrapped in single quotes. *)
Lemma log_path_is_quoted :
  let parsed var :=
    match @prepare_environment example_os example_environ "/opt/firefox"
            "/tmp/ffprof/asan" None [] with
    | (_, Ok env) =>
        _options (ls_self (@load_options example_os env var fresh).1) !! "log_path"
    | (_, Raise _) => None
    end in
  parsed "ASAN_OPTIONS" = Some "'/tmp/ffprof/asan'"
  /\ parsed "UBSAN_OPTIONS" = Some "'/tmp/ffprof/asan'"
  /\ parsed "ASAN_OPTIONS" <> Some "/tmp/ffprof/asan"
  /\ parsed "UBSAN_OPTIONS" <> Some "/tmp/ffprof/asan".
Proof.
  intros parsed.
  assert (parsed "ASAN_OPTIONS" = Some "'/tmp/ffprof/asan'") as Ha
    by (vm_compute; reflexivity).
  assert (parsed "UBSAN_OPTIONS" = Some "'/tmp/ffprof/asan'") as Hu
    by (vm_compute; reflexivity).
  rewrite Ha, Hu. repeat split; discriminate.
Qed.


(** ** [wait_on_files] *)

Section WaiterFacts.
Context `{OsPath}.
Variable world : World.
Variable pid : Z.
Variable watch : list string.
Variable poll_rate : Q.
Variable recursive : bool.
Variable wait_end : Q.

(** [os.path.realpath] returns an absolute path, never the empty string. *)
Hypothesis normalize_nonempty : forall x, normalize x <> "".

Lemma poll_open_files_truthy obs x :
  x ∈ poll_open_files obs pid recursive -> Py.truthy x = true.
Proof.
  unfold poll_open_files. intros Hin.
  apply list_elem_of_In, in_map_iff in Hin as (y & <- & _).
  pose proof (normalize_nonempty y). by destruct (normalize y).
Qed.

(** The test of line 357 is the test for a watched file being open. *)
Lemma any_still_open i :
  existsb Py.truthy
    (still_open watch (poll_open_files (w_poll world i) pid recursive)) = true
  <-> watched_open world pid recursive watch i.
Proof.
  unfold watched_open, still_open. rewrite existsb_exists. split.
  - intros (x & Hin & _). apply list_elem_of_In, list_elem_of_filter in Hin.
    exists x. tauto.
  - intros (x & Hopen & Hwatch). exists x. split.
    + apply list_elem_of_In, list_elem_of_filter. tauto.
    + by eapply poll_open_files_truthy.
Qed.

Lemma watched_open_nonempty i :
  watched_open world pid recursive watch i -> watch <> [].
Proof. intros (x & _ & Hin) ->. by apply elem_of_nil in Hin. Qed.

(** The three ways one evaluation of the loop can go. *)
Lemma wait_loop_idle fuel i trace :
  ~ busy world pid recursive watch i ->
  wait_loop world pid watch poll_rate recursive wait_end fuel i trace
    = Some (trace, Ok true).
Proof.
  intros Hidle. destruct fuel; simpl.
  all: destruct (obs_is_running (w_poll world i)) as [[]| |] eqn:Er; try done.
  all: destruct (bool_decide (watch = [])); simpl; try done.
  all: destruct (existsb _ _) eqn:Eo; simpl; try done.
  all: destruct Hidle; split; [done|]; by apply any_still_open.
Qed.

Lemma wait_loop_timeout fuel i trace :
  busy world pid recursive watch i ->
  deadline_reached world wait_end i ->
  wait_loop world pid watch poll_rate recursive wait_end fuel i trace
    = Some (trace ++ [Log (DebugTimeoutWaitingFor
                             (still_open watch
                                (poll_open_files (w_poll world i) pid recursive)))],
            Ok false).
Proof.
  intros [Hrun Hopen] Hd.
  pose proof (watched_open_nonempty i Hopen) as Hne.
  apply any_still_open in Hopen. apply Qle_bool_iff in Hd.
  destruct fuel; simpl; rewrite Hrun; simpl.
  all: rewrite bool_decide_eq_false_2 by done; simpl.
  all: by rewrite Hopen, Hd.
Qed.

Lemma wait_loop_sleep fuel i trace :
  busy world pid recursive watch i ->
  ~ deadline_reached world wait_end i ->
  wait_loop world pid watch poll_rate recursive wait_end (S fuel) i trace
    = wait_loop world pid watch poll_rate recursive wait_end fuel (S i)
        (trace ++ [Sleep poll_rate]).
Proof.
  intros [Hrun Hopen] Hd.
  pose proof (watched_open_nonempty i Hopen) as Hne.
  apply any_still_open in Hopen.
  assert (Qle_bool wait_end (obs_time (w_poll world i)) = false) as Hd'.
  { destruct (Qle_bool _ _) eqn:E; [|done]. by apply Qle_bool_iff in E. }
  simpl. rewrite Hrun. simpl.
  rewrite bool_decide_eq_false_2 by done. simpl.
  by rewrite Hopen, Hd'.
Qed.

Lemma busy_dec i :
  busy world pid recursive watch i \/ ~ busy world pid recursive watch i.
Proof.
  unfold busy. rewrite <- any_still_open.
  destruct (obs_is_running (w_poll world i)) as [[]| |];
    destruct (existsb _ _);
    first [ by left
          | right; intros [Hr Ho]; first [discriminate Hr | discriminate Ho] ].
Qed.

Lemma deadline_dec i :
  deadline_reached world wait_end i \/ ~ deadline_reached world wait_end i.
Proof.
  unfold deadline_reached. rewrite <- Qle_bool_iff.
  destruct (Qle_bool _ _); [by left|by right].
Qed.

(** From the [i]-th poll on: if the deadline is reached by poll [i + n]
    and the fuel lasts that long, the loop returns, and it returns
    [False] exactly when it gets to a poll at which the process is busy
    and the deadline reached. *)
Lemma wait_loop_returns n : forall i fuel trace,
  deadline_reached world wait_end (i + n) ->
  (n <= fuel)%nat ->
  exists trace' b,
    wait_loop world pid watch poll_rate recursive wait_end fuel i trace
      = Some (trace', Ok b)
    /\ (b = false <->
        exists k, (i <= k)%nat
          /\ (forall j, (i <= j < k)%nat ->
                busy world pid recursive watch j
                /\ ~ deadline_reached world wait_end j)
          /\ busy world pid recursive watch k
          /\ deadline_reached world wait_end k).
Proof.
  induction n as [|n IH]; intros i fuel trace Hd Hfuel.
  - rewrite Nat.add_0_r in Hd.
    destruct (busy_dec i) as [Hb|Hb].
    + rewrite wait_loop_timeout by done. eexists _, _. split; [done|].
      split; [|done]. intros _. exists i. split; [lia|]. split; [|done].
      intros j Hj. lia.
    + rewrite wait_loop_idle by done. eexists _, _. split; [done|].
      split; [done|]. intros (k & Hk & Hpre & Hbk & _).
      destruct (decide (k = i)) as [->|Hne]; [done|].
      destruct (Hpre i) as [? _]; [lia|done].
  - destruct (busy_dec i) as [Hb|Hb]; cycle 1.
    { rewrite wait_loop_idle by done. eexists _, _. split; [done|].
      split; [done|]. intros (k & Hk & Hpre & Hbk & _).
      destruct (decide (k = i)) as [->|Hne]; [done|].
      destruct (Hpre i) as [? _]; [lia|done]. }
    destruct (deadline_dec i) as [Hdi|Hdi].
    { rewrite wait_loop_timeout by done. eexists _, _. split; [done|].
      split; [|done]. intros _. exists i. split; [lia|]. split; [|done].
      intros j Hj. lia. }
    destruct fuel as [|fuel]; [lia|].
    rewrite wait_loop_sleep by done.
    destruct (IH (S i) fuel (trace ++ [Sleep poll_rate])) as (trace' & b & -> & Hiff).
    { by replace (S i + n)%nat with (i + S n)%nat by lia. }
    { lia. }
    exists trace', b. split; [done|]. rewrite Hiff. split.
    + intros (k & Hk & Hpre & Hbk & Hdk). exists k. split; [lia|].
      split; [|done]. intros j Hj.
      destruct (decide (j = i)) as [->|Hne]; [done|]. apply Hpre. lia.
    + intros (k & Hk & Hpre & Hbk & Hdk).
      destruct (decide (k = i)) as [->|Hne]; [done|].
      exists k. split; [lia|]. split; [|done]. intros j Hj. apply Hpre. lia.
Qed.

End WaiterFacts.

(** C6: a call with [poll_rate < 0], [timeout < 0] or [poll_rate > timeout]
    raises [AssertionError] with no effect at all, whatever the file
    system, the process table and the clock are: nothing is normalized,
    polled or slept before the assertions. *)
Theorem timing_preconditions `{OsPath} `{PyFloat}
    (world : World) (pid : Z) (wait_files : list string)
    (poll_rate : Q) (recursive : bool) (timeout : Q) (fuel : nat) :
  (poll_rate < 0 \/ timeout < 0 \/ timeout < poll_rate)%Q ->
  wait_on_files world pid wait_files poll_rate recursive timeout fuel
    = Some ([], Raise AssertionError).
Proof.
  intros Hbad. unfold wait_on_files.
  destruct (Qle_bool 0 poll_rate) eqn:E1; [|done].
  destruct (Qle_bool 0 timeout) eqn:E2; [|done].
  destruct (Qle_bool poll_rate timeout) eqn:E3; [|done].
  apply Qle_bool_iff in E1, E2, E3.
  destruct Hbad as [Hb|[Hb|Hb]]; by apply Qlt_not_le in Hb.
Qed.

(** The call of the specification: [poll_rate=1], [timeout=0.5]. *)
Lemma timing_preconditions_witness :
  (1 < 0 \/ (1#2) < 0 \/ (1#2) < 1)%Q
  /\ @wait_on_files example_os exact_float (example_world None) 4242 ["/tmp/ffprof/lock"]
       1 true (1#2) 10 = Some ([], Raise AssertionError).
Proof.
  assert (1 < 0 \/ (1#2) < 0 \/ (1#2) < 1)%Q as Hbad.
  { right; right. reflexivity. }
  split; [exact Hbad|].
  exact (@timing_preconditions example_os exact_float (example_world None) 4242
           ["/tmp/ffprof/lock"] 1 true (1#2) 10 Hbad).
Defined.

(** C5: under the timing preconditions, [wait_on_files] returns [True]
    with no effect, for every amount of fuel, when the normalized list of
    existing watch files is empty, when [psutil.Process(pid)] raises
    [NoSuchProcess] or [AccessDenied], and when the process is not running
    at the first test of the loop; in the first case whatever the process
    table says. *)
Theorem wait_immediate `{OsPath} `{PyFloat}
    (world : World) (pid : Z) (wait_files : list string)
    (poll_rate : Q) (recursive : bool) (timeout : Q) (fuel : nat) :
  timing_ok poll_rate timeout ->
  normalize_wait_files wait_files = []
  \/ w_Process world pid = NoSuchProcess
  \/ w_Process world pid = AccessDenied
  \/ obs_is_running (w_poll world 0) = PsOk false ->
  wait_on_files world pid wait_files poll_rate recursive timeout fuel
    = Some ([], Ok true).
Proof.
  intros (H1 & H2 & H3) Hcase. unfold wait_on_files.
  apply Qle_bool_iff in H1, H2, H3. rewrite H1, H2, H3. simpl.
  destruct (w_Process world pid) as [[]| |] eqn:Ep; [|done|done].
  destruct Hcase as [Hw|[?|[?|Hr]]]; [|done|done|].
  - rewrite Hw. destruct fuel; simpl;
      by destruct (obs_is_running (w_poll world 0)) as [[]| |].
  - destruct fuel; simpl; by rewrite Hr.
Qed.

Lemma wait_immediate_witness :
  timing_ok (1#10) 60
  /\ @wait_on_files example_os exact_float (example_world None) 4242 [] (1#10) true 60 0
     = Some ([], Ok true)
  /\ @wait_on_files example_os exact_float (example_world None) 4242 ["/nonexistent"]
       (1#10) true 60 0 = Some ([], Ok true)
  /\ @wait_on_files example_os exact_float (example_world None) 1 ["/tmp/ffprof/lock"]
       (1#10) true 60 0 = Some ([], Ok true).
Proof.
  assert (timing_ok (1#10) 60) as Ht.
  { unfold timing_ok. repeat split; discriminate. }
  split; [exact Ht|]. split; [|split].
  - apply (@wait_immediate example_os exact_float _ _ _ _ _ _ _ Ht). left. reflexivity.
  - apply (@wait_immediate example_os exact_float _ _ _ _ _ _ _ Ht). left. reflexivity.
  - apply (@wait_immediate example_os exact_float _ _ _ _ _ _ _ Ht). right; left. reflexivity.
Defined.

Section TreeFacts.
Context `{OsPath}.

Lemma elem_of_poll_open_files world pid recursive i x :
  x ∈ poll_open_files (w_poll world i) pid recursive
  <-> open_in_tree world pid recursive i x.
Proof.
  unfold poll_open_files, open_in_tree, in_tree, normalize.
  rewrite list_elem_of_In, in_map_iff. split.
  - intros (path & <- & Hin).
    apply list_elem_of_In, elem_of_remove_dups, list_elem_of_In, in_flat_map
      in Hin as (target & Ht & Hp).
    destruct (obs_open_files (w_poll world i) target) as [paths| |] eqn:Eo;
      [|done|done].
    exists target, paths, path. split_and!; [|done|by apply list_elem_of_In|done].
    destruct Ht as [<-|Ht]; [by left|]. right.
    destruct recursive; [|done]. split; [done|].
    destruct (obs_children (w_poll world i)) as [children| |]; [|done|done].
    exists children. split; [done|]. by apply list_elem_of_In.
  - intros (target & paths & path & Ht & Eo & Hp & ->).
    exists path. split; [done|].
    apply list_elem_of_In, elem_of_remove_dups, list_elem_of_In, in_flat_map.
    exists target. split.
    + destruct Ht as [->|(-> & children & -> & Hc)]; [by left|].
      right. by apply list_elem_of_In.
    + rewrite Eo. by apply list_elem_of_In.
Qed.

Lemma elem_of_normalize_wait_files wait_files x :
  x ∈ normalize_wait_files wait_files <-> watched wait_files x.
Proof.
  unfold normalize_wait_files, watched, normalize.
  rewrite list_elem_of_In, in_map_iff. split.
  - intros (w & <- & Hin). apply list_elem_of_In, list_elem_of_filter in Hin.
    exists w. tauto.
  - intros (w & Hin & He & ->). exists w. split; [done|].
    apply list_elem_of_In, list_elem_of_filter. tauto.
Qed.

Lemma watched_open_iff world pid recursive wait_files i :
  watched_open world pid recursive (normalize_wait_files wait_files) i
  <-> holds_watched world pid recursive wait_files i.
Proof.
  unfold watched_open, holds_watched. split; intros (x & Ho & Hw); exists x.
  - by rewrite <- elem_of_poll_open_files, <- elem_of_normalize_wait_files.
  - by rewrite elem_of_poll_open_files, elem_of_normalize_wait_files.
Qed.

Lemma times_out_at_iff world pid recursive wait_files wait_end k :
  times_out_at world pid recursive (normalize_wait_files wait_files) wait_end k
  <-> gives_up_at world pid recursive wait_files wait_end k.
Proof.
  unfold times_out_at, gives_up_at, busy, deadline_reached.
  setoid_rewrite watched_open_iff. split.
  - intros (Hpre & [Hr Hh] & Hd). split_and!; try done.
    intros j Hj. destruct (Hpre j Hj) as [[? ?] ?]. done.
  - intros (Hpre & Hr & Hh & Hd). split_and!; try done.
    intros j Hj. destruct (Hpre j Hj) as (? & ? & ?). done.
Qed.

End TreeFacts.

(** C4: under the timing preconditions, with [wait_end] the float sum of
    the clock read on entry and [timeout], and [os.path.realpath] never
    returning the empty string:
    - if the clock reaches [wait_end] by the [n]-th poll and the fuel
      lasts [n] iterations, [wait_on_files] returns; it returns [False]
      exactly when [psutil.Process(pid)] succeeds and the loop gets to a
      poll at which the process is running, the process or (if
      [recursive]) one of its reported descendants reports open a file
      whose normalized path is that of an existing file of [wait_files],
      and the clock has reached [wait_end]; otherwise it returns [True];
    - if at the first poll no such file is reported open, it returns
      [True] with no effect, so before any sleep, for every amount of
      fuel. *)
Theorem wait_result_characterized `{OsPath} `{PyFloat}
    (world : World) (pid : Z) (wait_files : list string)
    (poll_rate : Q) (recursive : bool) (timeout : Q) :
  (forall x, normcase (realpath x) <> "") ->
  timing_ok poll_rate timeout ->
  let wait_end := float_add (w_time0 world) timeout in
  (forall n fuel,
     (wait_end <= obs_time (w_poll world n))%Q -> (n <= fuel)%nat ->
     exists trace b,
       wait_on_files world pid wait_files poll_rate recursive timeout fuel
         = Some (trace, Ok b)
       /\ (b = false <->
           w_Process world pid = PsOk tt
           /\ exists k, gives_up_at world pid recursive wait_files wait_end k))
  /\ (forall fuel,
        ~ holds_watched world pid recursive wait_files 0 ->
        wait_on_files world pid wait_files poll_rate recursive timeout fuel
          = Some ([], Ok true)).
Proof.
  intros Hnorm (H1 & H2 & H3) wait_end.
  apply Qle_bool_iff in H1, H2, H3.
  unfold wait_on_files. rewrite H1, H2, H3. cbn [negb].
  fold wait_end. split.
  - intros n fuel Hd Hfuel.
    destruct (w_Process world pid) as [[]| |] eqn:Ep.
    + destruct (wait_loop_returns world pid (normalize_wait_files wait_files)
                  poll_rate recursive wait_end Hnorm n 0 fuel [] Hd Hfuel)
        as (trace & b & -> & Hiff).
      exists trace, b. split; [done|]. rewrite Hiff. split.
      * intros (k & _ & Hpre & Hb & Hdk). split; [done|]. exists k.
        apply times_out_at_iff. split; [|done]. intros j Hj. apply Hpre. lia.
      * intros (_ & k & Hk). apply times_out_at_iff in Hk as (Hpre & Hb & Hdk).
        exists k. split; [lia|]. split; [|done]. intros j Hj. apply Hpre. lia.
    + exists [], true. split; [done|]. split; [done|]. by intros [? _].
    + exists [], true. split; [done|]. split; [done|]. by intros [? _].
  - intros fuel Hclosed.
    destruct (w_Process world pid) as [[]| |] eqn:Ep; [|done|done].
    apply wait_loop_idle; [done|]. intros [_ Ho]. by apply watched_open_iff in Ho.
Qed.

Lemma example_normalize_nonempty x :
  @normcase example_os (@realpath example_os x) <> "".
Proof.
  simpl. destruct x as [|c x]; [done|].
  simpl. by destruct (Ascii.eqb c "/").
Qed.

Lemma wait_result_characterized_witness :
  timing_ok (1#10) (2#10)
  /\ (100 + (2#10) <= obs_time (w_poll (example_world None) 1))%Q
  /\ exists trace b,
       @wait_on_files example_os exact_float (example_world None) 4242
         ["/tmp/ffprof/lock"] (1#10) true (2#10) 1 = Some (trace, Ok b)
       /\ (b = false <->
           w_Process (example_world None) 4242 = PsOk tt
           /\ exists k, @gives_up_at example_os (example_world None) 4242 true
                          ["/tmp/ffprof/lock"] (100 + (2#10))%Q k).
Proof.
  assert (timing_ok (1#10) (2#10)) as Ht.
  { unfold timing_ok. repeat split; discriminate. }
  assert (100 + (2#10) <= obs_time (w_poll (example_world None) 1))%Q as Hd.
  { vm_compute. discriminate. }
  split; [exact Ht|]. split; [exact Hd|].
  exact (proj1 (@wait_result_characterized example_os exact_float
                  (example_world None) 4242
                  ["/tmp/ffprof/lock"] (1#10) true (2#10)
                  example_normalize_nonempty Ht) 1%nat 1%nat Hd (le_n 1)).
Defined.

(** The two outcomes on the example worlds: the lock is released at the
    third poll, or never. *)
Example wait_released :
  @wait_on_files example_os exact_float (example_world (Some 3%nat)) 4242
    ["/tmp/ffprof/lock"; "/nonexistent"] (1#10) true (1#2) 10
  = Some ([Sleep (1#10); Sleep (1#10); Sleep (1#10)], Ok true).
Proof. vm_compute. reflexivity. Qed.

Example wait_timed_out :
  @wait_on_files example_os exact_float (example_world None) 4242
    ["/tmp/ffprof/lock"] (1#10) true (2#10) 10
  = Some ([Sleep (1#10); Log (DebugTimeoutWaitingFor ["/tmp/ffprof/lock"])],
          Ok false).
Proof. vm_compute. reflexivity. Qed.


(** * Further properties *)

(** ** [check_prefs] *)

Lemma elem_of_pref_names lines x :
  x ∈ pref_names lines <->
  exists line, line ∈ lines
    /\ Py.startswith line "user_pref(" = true
    /\ first_piece "," line = x.
Proof.
  unfold pref_names. rewrite elem_of_list_to_set, list_elem_of_In, in_map_iff.
  split.
  - intros (line & Hx & Hin). apply list_elem_of_In, list_elem_of_filter in Hin.
    exists line. tauto.
  - intros (line & Hin & Hs & Hx). exists line. split; [done|].
    apply list_elem_of_In, list_elem_of_filter. tauto.
Qed.

Section PrefsFacts.
Context `{OsPath}.
Variable read_lines : string -> list string.

Lemma check_prefs_Ok prof_prefs input_prefs :
  isfile prof_prefs = true -> isfile input_prefs = true ->
  (check_prefs read_lines prof_prefs input_prefs).2
  = Ok (bool_decide (pref_names (read_lines input_prefs)
                     ⊆ pref_names (read_lines prof_prefs))).
Proof.
  intros Hp Hi. unfold check_prefs. rewrite Hp, Hi. cbn [negb snd].
  f_equal. rewrite negb_involutive.
  apply bool_decide_ext. split.
  - apply empty_difference_subseteq_L.
  - apply subseteq_empty_difference_L.
Qed.

End PrefsFacts.

(** X2: when both files exist, [check_prefs] returns [True] exactly when
    every line of the input file that starts with [user_pref(] has, in the
    profile file, a line starting with [user_pref(] with the same text
    before its first comma; otherwise it returns [False].  Other lines,
    and what follows the first comma, play no part. *)
Theorem check_prefs_true_iff `{OsPath} (read_lines : string -> list string)
    (prof_prefs input_prefs : string) :
  isfile prof_prefs = true ->
  isfile input_prefs = true ->
  ((check_prefs read_lines prof_prefs input_prefs).2 = Ok true <->
     forall line, line ∈ read_lines input_prefs ->
       Py.startswith line "user_pref(" = true ->
       exists line', line' ∈ read_lines prof_prefs
         /\ Py.startswith line' "user_pref(" = true
         /\ first_piece "," line' = first_piece "," line)
  /\ ((check_prefs read_lines prof_prefs input_prefs).2 = Ok true
      \/ (check_prefs read_lines prof_prefs input_prefs).2 = Ok false).
Proof.
  intros Hp Hi. rewrite check_prefs_Ok by done. split.
  - split.
    + intros [= Hsub%bool_decide_eq_true] line Hin Hs.
      assert (first_piece "," line ∈ pref_names (read_lines prof_prefs)) as Hx.
      { apply Hsub. apply (proj2 (elem_of_pref_names _ _)). by exists line. }
      apply elem_of_pref_names in Hx as (line' & Hin' & Hs' & Hx). eauto.
    + intros Hall. f_equal. apply bool_decide_eq_true. intros x Hx.
      apply elem_of_pref_names in Hx as (line & Hin & Hs & <-).
      apply (proj2 (elem_of_pref_names _ _)). by apply Hall.
  - destruct (bool_decide _); auto.
Qed.

Lemma check_prefs_true_iff_witness :
  @isfile prefs_os "/profile/prefs.js" = true
  /\ @isfile prefs_os "/input/prefs.js" = true
  /\ ((@check_prefs prefs_os example_prefs "/profile/prefs.js" "/input/prefs.js").2
       = Ok true
      \/ (@check_prefs prefs_os example_prefs "/profile/prefs.js" "/input/prefs.js").2
         = Ok false).
Proof.
  assert (@isfile prefs_os "/profile/prefs.js" = true) as Hp by (vm_compute; reflexivity).
  assert (@isfile prefs_os "/input/prefs.js" = true) as Hi by (vm_compute; reflexivity).
  split; [exact Hp|]. split; [exact Hi|].
  exact (proj2 (@check_prefs_true_iff prefs_os example_prefs _ _ Hp Hi)).
Defined.

(** The value of a preference is not compared: the input file asks for
    [a.b] with value 2, the profile has it with value 1, and the check
    succeeds; the other way round [c.d] is missing. *)
Example check_prefs_ignores_values :
  @check_prefs prefs_os example_prefs "/profile/prefs.js" "/input/prefs.js"
    = ([DebugPrefsNotSet ""], Ok true)
  /\ (@check_prefs prefs_os example_prefs "/input/prefs.js" "/profile/prefs.js").2
    = Ok false.
Proof. split; vm_compute; reflexivity. Qed.

(** X3: on existing files [check_prefs] is a preorder: a file has all its
    own preferences, and if [b] has all preferences of [c] and [a] has all
    preferences of [b], then [a] has all preferences of [c]. *)
Theorem check_prefs_preorder `{OsPath} (read_lines : string -> list string)
    (a b c : string) :
  isfile a = true ->
  (check_prefs read_lines a a).2 = Ok true
  /\ ((check_prefs read_lines a b).2 = Ok true ->
      (check_prefs read_lines b c).2 = Ok true ->
      (check_prefs read_lines a c).2 = Ok true).
Proof.
  intros Ha. split.
  - rewrite check_prefs_Ok by done. f_equal. by apply bool_decide_eq_true.
  - intros Hab Hbc.
    assert (isfile b = true) as Hb.
    { unfold check_prefs in Hab. destruct (isfile b); [done|]. by destruct (isfile a). }
    assert (isfile c = true) as Hc.
    { unfold check_prefs in Hbc. by destruct (isfile c). }
    rewrite check_prefs_Ok in * by done.
    injection Hab as Hab. injection Hbc as Hbc.
    apply bool_decide_eq_true in Hab, Hbc.
    f_equal. apply bool_decide_eq_true. by transitivity (pref_names (read_lines b)).
Qed.

Lemma check_prefs_preorder_witness :
  @isfile prefs_os "/profile/prefs.js" = true
  /\ (@check_prefs prefs_os example_prefs "/profile/prefs.js" "/profile/prefs.js").2
     = Ok true.
Proof.
  assert (@isfile prefs_os "/profile/prefs.js" = true) as Hp by (vm_compute; reflexivity).
  split; [exact Hp|].
  exact (proj1 (@check_prefs_preorder prefs_os example_prefs
                  "/profile/prefs.js" "/input/prefs.js" "/input/prefs.js" Hp)).
Defined.

(** ** [SanitizerConfig] *)

(** X4: [add] changes nothing but the option [key]; it stores [value]
    when [overwrite] is set or [key] is absent and keeps the stored value
    otherwise.  Adding the same option twice is the same as adding it
    once. *)
Theorem add_spec (key value : string) (overwrite : bool)
    (self : SanitizerConfig) (k : string) :
  _options (add key value overwrite self) !! k =
    (if decide (k = key) then
       if overwrite then Some value
       else Some (default value (_options self !! key))
     else _options self !! k)
  /\ add key value overwrite (add key value overwrite self)
     = add key value overwrite self.
Proof.
  split.
  - unfold add. destruct (decide (k = key)) as [->|Hne].
    + destruct overwrite.
      * rewrite orb_true_r. cbn [_options]. by rewrite lookup_insert_eq.
      * rewrite orb_false_r. destruct (_options self !! key) as [x|] eqn:E.
        -- rewrite bool_decide_eq_true_2 by eauto. cbn [negb]. by rewrite E.
        -- rewrite bool_decide_eq_false_2 by (by intros [? ?]).
           cbn [negb _options]. by rewrite lookup_insert_eq.
    + destruct (_ || _); [|done]. cbn [_options]. by rewrite lookup_insert_ne.
  - unfold add.
    destruct (negb (bool_decide (is_Some (_options self !! key))) || overwrite) eqn:E.
    + lazy iota. cbn [_options]. rewrite lookup_insert_eq.
      rewrite bool_decide_eq_true_2 by eauto. cbn [negb orb].
      destruct overwrite; [|done]. by rewrite insert_insert_eq.
    + by rewrite E.
Qed.

Section AddAllFacts.

Lemma add_all_cons key value o calls self :
  add_all ((key, value, o) :: calls) self = add_all calls (add key value o self).
Proof. reflexivity. Qed.

Lemma add_all_notin (calls : list (string * string * bool)) self k :
  k ∉ calls.*1.*1 ->
  _options (add_all calls self) !! k = _options self !! k.
Proof.
  revert self. induction calls as [|[[key value] o] calls IH]; intros self Hk; [done|].
  apply not_elem_of_cons in Hk as [Hne Hk].
  rewrite add_all_cons, IH by done. by rewrite add_lookup_ne.
Qed.

Lemma add_all_in (calls : list (string * string * bool)) self
    (k v : string) (o : bool) :
  NoDup calls.*1.*1 -> (k, v, o) ∈ calls ->
  _options (add_all calls self) !! k =
    if o then Some v else Some (default v (_options self !! k)).
Proof.
  revert self. induction calls as [|[[key value] o'] calls IH]; intros self Hnd Hin.
  { by apply elem_of_nil in Hin. }
  cbn [fmap list_fmap fst] in Hnd. apply NoDup_cons in Hnd as [Hk Hnd].
  apply elem_of_cons in Hin as [[= -> -> ->]|Hin].
  - rewrite add_all_cons, add_all_notin by done.
    unfold add. destruct o'.
    + rewrite orb_true_r. cbn [_options]. by rewrite lookup_insert_eq.
    + rewrite orb_false_r. destruct (_options self !! key) as [x|] eqn:E.
      * rewrite bool_decide_eq_true_2 by eauto. cbn [negb]. by rewrite E.
      * rewrite bool_decide_eq_false_2 by (by intros [? ?]).
        cbn [negb _options]. by rewrite lookup_insert_eq.
  - rewrite add_all_cons, IH by done.
    assert (key <> k) as Hne.
    { intros ->. apply Hk.
      apply (list_elem_of_fmap_2 fst _ (k, v)).
      by apply (list_elem_of_fmap_2 fst _ (k, v, o)). }
    by rewrite add_lookup_ne.
Qed.

End AddAllFacts.

(** X5: a run of [add] calls with distinct names, as in
    [configure_sanitizers], overlays the options already stored: a forced
    option takes the call's value, an unforced one keeps the stored value
    and takes the call's value only when nothing was stored, and options
    that no call names are kept as they are. *)
Theorem add_all_overlay (calls : list (string * string * bool))
    (self : SanitizerConfig) :
  NoDup calls.*1.*1 ->
  (forall k v, (k, v, true) ∈ calls ->
     _options (add_all calls self) !! k = Some v)
  /\ (forall k v, (k, v, false) ∈ calls ->
        _options (add_all calls self) !! k
        = Some (default v (_options self !! k)))
  /\ (forall k, k ∉ calls.*1.*1 ->
        _options (add_all calls self) !! k = _options self !! k).
Proof.
  intros Hnd. split_and!.
  - intros k v Hin. by rewrite (add_all_in calls self k v true).
  - intros k v Hin. by rewrite (add_all_in calls self k v false).
  - intros k Hk. by apply add_all_notin.
Qed.

Lemma add_all_overlay_witness :
  NoDup (asan_adds "/tmp/ffprof/asan").*1.*1
  /\ _options (add_all (asan_adds "/tmp/ffprof/asan")
                 (add "detect_leaks" "true" false SanitizerConfig_init))
       !! "detect_leaks" = Some "true".
Proof.
  assert (NoDup (asan_adds "/tmp/ffprof/asan").*1.*1) as Hnd.
  { apply (bool_decide_unpack _). vm_compute. exact I. }
  split; [exact Hnd|].
  refine (proj1 (proj2 (add_all_overlay (asan_adds "/tmp/ffprof/asan") _ Hnd))
            "detect_leaks" "false" _).
  apply (bool_decide_unpack _). vm_compute. exact I.
Defined.

Section LoaderMore.
Context `{OsPath}.

(** Tokens that do not name an option leave it as it is, also when the
    loop ends with an exception. *)
Lemma load_tokens_frame key ts st st' r name :
  load_tokens key ts st = (st', r) ->
  (forall t v, t ∈ ts -> Py.str_split "=" t <> [name; v]) ->
  _options (ls_self st') !! name = _options (ls_self st) !! name.
Proof.
  revert st. induction ts as [|t ts IH]; intros st Hl Hno.
  { simpl in Hl. by simplify_eq. }
  cbn [load_tokens] in Hl.
  assert (forall t' v, t' ∈ ts -> Py.str_split "=" t' <> [name; v]) as Hno'.
  { intros t' v Hin. apply Hno. by right. }
  destruct (load_option_cases key t st)
    as [(n & v & x & Es & Hc & Ho)|[(v & Es & Hf & Ho)|[Hmal Ho]]];
    rewrite Ho in Hl.
  - rewrite (IH _ Hl Hno'). cbn [set_option ls_self _options].
    apply lookup_insert_ne. intros ->. apply (Hno t v); [by left|done].
  - by simplify_eq.
  - by rewrite (IH _ Hl Hno').
Qed.

Lemma malformed_iff t :
  length (Py.str_split "=" t) <> 2%nat <->
  forall n v, Py.str_split "=" t <> [n; v].
Proof.
  split.
  - intros Hlen n v E. by rewrite E in Hlen.
  - intros Hno Hlen. destruct (Py.str_split "=" t) as [|a [|b [|c l]]]; try done.
    by destruct (Hno a b).
Qed.

(** One warning per malformed token, and nothing else is logged. *)
Lemma load_tokens_log key ts st st' :
  load_tokens key ts st = (st', Ok tt) ->
  ls_log st' =
    ls_log st ++
    replicate (length (filter (fun t => length (Py.str_split "=" t) <> 2%nat) ts))
              (WarnMalformedOption key).
Proof.
  revert st. induction ts as [|t ts IH]; intros st Hl.
  { simpl in Hl. simplify_eq. by rewrite app_nil_r. }
  cbn [load_tokens] in Hl.
  destruct (load_option_cases key t st)
    as [(n & v & x & Es & Hc & Ho)|[(v & Es & Hf & Ho)|[Hmal Ho]]];
    rewrite Ho in Hl; [| done |].
  - rewrite (IH _ Hl). rewrite filter_cons_False; [done|].
    rewrite Es. simpl. by intros ?.
  - rewrite (IH _ Hl). rewrite filter_cons_True by by apply malformed_iff.
    cbn [warn_malformed ls_log length replicate]. by rewrite <- app_assoc.
Qed.

End LoaderMore.

(** X6: when an option is named by several tokens, the last one wins: if
    [load_options] raises nothing, the value stored under the name of a
    well-formed token that no later token names again is the value of that
    token (normalized, for [suppressions]). *)
Theorem load_last_token_wins `{OsPath}
    (env : gmap string string) (key raw : string) (st st' : loader_state)
    (ts1 ts2 : list string) (t name value : string) :
  env !! key = Some raw ->
  re_split re_delim raw = ts1 ++ t :: ts2 ->
  Py.str_split "=" t = [name; value] ->
  (forall t' v', t' ∈ ts2 -> Py.str_split "=" t' <> [name; v']) ->
  load_options env key st = (st', Ok tt) ->
  exists x, check_suppressions name value = Ok x
            /\ _options (ls_self st') !! name = Some x.
Proof.
  intros Henv Hts Ht Hlater. unfold load_options. rewrite Henv.
  destruct (Py.contains " " raw); [done|].
  rewrite Hts, load_tokens_app.
  destruct (load_tokens key ts1 st) as [st1 [[]|e]]; [|done].
  cbn [load_tokens].
  destruct (load_option_cases key t st1)
    as [(n & v & x & Es & Hc & ->)|[(v & Es & Hf & ->)|[Hmal ->]]].
  - rewrite Ht in Es. simplify_eq. intros Hl. exists x. split; [done|].
    rewrite (load_tokens_frame _ _ _ _ _ n Hl Hlater).
    cbn [set_option ls_self _options]. apply lookup_insert_eq.
  - done.
  - by destruct (Hmal _ _ Ht).
Qed.

Lemma load_last_token_wins_witness :
  let raw := "detect_leaks=0:symbolize=1:detect_leaks=1" in
  let env : gmap string string := {[ "ASAN_OPTIONS" := raw ]} in
  exists st', @load_options example_os env "ASAN_OPTIONS" fresh = (st', Ok tt)
    /\ exists x, @check_suppressions example_os "detect_leaks" "1" = Ok x
                 /\ _options (ls_self st') !! "detect_leaks" = Some x.
Proof.
  intros raw env.
  assert (is_ok (@load_options example_os env "ASAN_OPTIONS" fresh).2 = true)
    as Hok by (vm_compute; reflexivity).
  destruct (@load_options example_os env "ASAN_OPTIONS" fresh) as [st' [[]|e]] eqn:Hl;
    [|discriminate Hok].
  exists st'. split; [reflexivity|].
  apply (@load_last_token_wins example_os env "ASAN_OPTIONS" raw fresh st'
           ["detect_leaks=0"; "symbolize=1"] [] "detect_leaks=1").
  - vm_compute; reflexivity.
  - vm_compute; reflexivity.
  - vm_compute; reflexivity.
  - intros t' v' Hin. by apply elem_of_nil in Hin.
  - exact Hl.
Defined.

(** X7: [load_options] leaves every option untouched that no token of the
    option string names, whether it returns or raises; when the key is
    absent from the environment, or the assertion fails, it changes
    nothing at all. *)
Theorem load_options_frame `{OsPath}
    (env : gmap string string) (key : string) (st : loader_state) :
  (forall name,
     (forall raw t v, env !! key = Some raw -> t ∈ re_split re_delim raw ->
        Py.str_split "=" t <> [name; v]) ->
     _options (ls_self (load_options env key st).1) !! name
     = _options (ls_self st) !! name)
  /\ (env !! key = None -> load_options env key st = (st, Ok tt)).
Proof.
  split; [|by intros Hnone; unfold load_options; rewrite Hnone].
  intros name Hno. unfold load_options.
  destruct (env !! key) as [raw|] eqn:Henv; [|done].
  destruct (Py.contains " " raw); [done|].
  destruct (load_tokens key (re_split re_delim raw) st) as [st' r] eqn:Hl.
  apply (load_tokens_frame _ _ _ _ _ name Hl). intros t v. by apply Hno.
Qed.

(** X8: a call of [load_options] that raises nothing logs exactly one
    warning for every token that does not split into a name and a value
    at [=], and nothing else. *)
Theorem load_options_warnings `{OsPath}
    (env : gmap string string) (key raw : string) (st st' : loader_state) :
  env !! key = Some raw ->
  load_options env key st = (st', Ok tt) ->
  ls_log st' =
    ls_log st ++
    replicate
      (length (filter (fun t => length (Py.str_split "=" t) <> 2%nat)
                      (re_split re_delim raw)))
      (WarnMalformedOption key).
Proof.
  intros Henv. unfold load_options. rewrite Henv.
  destruct (Py.contains " " raw); [done|]. apply load_tokens_log.
Qed.

Lemma load_options_warnings_witness :
  let raw := "detect_leaks=0::a=b=c:symbolize" in
  let env : gmap string string := {[ "ASAN_OPTIONS" := raw ]} in
  exists st', @load_options example_os env "ASAN_OPTIONS" fresh = (st', Ok tt)
    /\ ls_log st' = replicate 3 (WarnMalformedOption "ASAN_OPTIONS").
Proof.
  intros raw env.
  assert (is_ok (@load_options example_os env "ASAN_OPTIONS" fresh).2 = true)
    as Hok by (vm_compute; reflexivity).
  destruct (@load_options example_os env "ASAN_OPTIONS" fresh) as [st' [[]|e]] eqn:Hl;
    [|discriminate Hok].
  exists st'. split; [reflexivity|].
  assert (env !! "ASAN_OPTIONS" = Some raw) as Henv by (vm_compute; reflexivity).
  exact (@load_options_warnings example_os env "ASAN_OPTIONS" raw fresh st' Henv Hl).
Defined.

(** ** [configure_sanitizers] and [prepare_environment], continued *)

Section EnvironmentMore.
Context `{OsPath}.

(** [load_options] looks at the environment only under its key, and what
    it stores and raises does not depend on the log. *)
Lemma load_tokens_self key ts st1 st2 :
  ls_self st1 = ls_self st2 ->
  ls_self (load_tokens key ts st1).1 = ls_self (load_tokens key ts st2).1
  /\ (load_tokens key ts st1).2 = (load_tokens key ts st2).2.
Proof.
  revert st1 st2. induction ts as [|t ts IH]; intros st1 st2 Hself; [done|].
  cbn [load_tokens]. unfold load_option, try_option.
  destruct (Py.unpack2 (Py.str_split "=" t)) as [[n v]|e].
  - destruct (check_suppressions n v) as [x|e].
    + apply IH. cbn [set_option ls_self]. by rewrite Hself.
    + destruct e; cbn [fst snd]; first [by apply IH | by split].
  - destruct e; cbn [fst snd]; first [by apply IH | by split].
Qed.

Lemma load_options_self env1 env2 key st1 st2 :
  env1 !! key = env2 !! key -> ls_self st1 = ls_self st2 ->
  ls_self (load_options env1 key st1).1 = ls_self (load_options env2 key st2).1
  /\ (load_options env1 key st1).2 = (load_options env2 key st2).2.
Proof.
  intros Henv Hself. unfold load_options. rewrite Henv.
  destruct (env2 !! key) as [raw|]; [|done].
  destruct (Py.contains " " raw); [done|]. by apply load_tokens_self.
Qed.

(** [load_options] returns exactly on loadable option strings. *)
Lemma load_options_is_ok env key st :
  is_ok (load_options env key st).2 = true <-> options_loadable env key.
Proof.
  unfold load_options, options_loadable.
  destruct (env !! key) as [raw|] eqn:Henv; [|done].
  destruct (Py.contains " " raw) eqn:Hsp.
  { cbn [is_ok snd]. split; [done|]. intros Hl.
    destruct (Hl raw eq_refl) as [Hc _]. congruence. }
  pose proof (load_tokens_IOError key (re_split re_delim raw) st) as Hio.
  destruct (load_tokens_result key (re_split re_delim raw) st) as [Hr|Hr];
    rewrite Hr in *; cbn [is_ok].
  - split; [|done]. intros _ raw' [= <-]. split; [done|].
    intros t v Hin Es.
    destruct (isfile (abspath (expanduser v))) eqn:Ef; [done|].
    assert (Ok tt = Raise IOError) as Habs; [|done].
    apply Hio. eauto.
  - split; [done|]. intros Hl.
    destruct (proj1 Hio eq_refl) as (t & v & Hin & Es & Hf).
    destruct (Hl raw eq_refl) as [_ Hall].
    by rewrite (Hall t v Hin Es) in Hf.
Qed.

Lemma load_options_raises env key st e :
  (load_options env key st).2 = Raise e -> e = AssertionError \/ e = IOError.
Proof.
  unfold load_options. destruct (env !! key) as [raw|]; [|done].
  destruct (Py.contains " " raw); [intros [= <-]; by left|].
  destruct (load_tokens_result key (re_split re_delim raw) st) as [Hr|Hr];
    rewrite Hr; [done|]. intros [= <-]. by right.
Qed.

(** One family: it returns exactly when its option string is loadable, and
    then assigns the serialization of the loaded options overlaid by its
    [add] calls. *)
Lemma configure_family_spec var adds env log :
  (options_loadable env var ->
   exists log',
     configure_family var adds env log =
       ((<[var := options (add_all adds (ls_self (load_options env var fresh).1))]> env,
         log'),
        Ok (add_all adds (ls_self (load_options env var fresh).1))))
  /\ (~ options_loadable env var ->
      exists r e, configure_family var adds env log = (r, Raise e)
                  /\ (e = AssertionError \/ e = IOError)).
Proof.
  unfold configure_family.
  pose proof (load_options_is_ok env var
                {| ls_self := SanitizerConfig_init; ls_log := log |}) as Hok.
  pose proof (load_options_raises env var
                {| ls_self := SanitizerConfig_init; ls_log := log |}) as Hraise.
  destruct (load_options_self env env var
              {| ls_self := SanitizerConfig_init; ls_log := log |} fresh
              eq_refl eq_refl) as [Hself _].
  destruct (load_options env var {| ls_self := SanitizerConfig_init; ls_log := log |})
    as [st [[]|e]]; cbn [is_ok fst snd] in *.
  - split; [|intros Hno; destruct Hno; by apply Hok].
    intros _. exists (ls_log st). by rewrite <- Hself.
  - split; [intros Hl; apply Hok in Hl; done|].
    intros _. eauto.
Qed.

Lemma options_loadable_insert env var var' x :
  var <> var' ->
  options_loadable (<[var' := x]> env) var <-> options_loadable env var.
Proof. intros Hne. unfold options_loadable. by rewrite lookup_insert_ne. Qed.

Lemma load_options_insert env var var' x :
  var <> var' ->
  ls_self (load_options (<[var' := x]> env) var fresh).1
  = ls_self (load_options env var fresh).1.
Proof.
  intros Hne. apply load_options_self; [|done]. by rewrite lookup_insert_ne.
Qed.

Lemma loadable_dec env var :
  options_loadable env var \/ ~ options_loadable env var.
Proof.
  rewrite <- (load_options_is_ok env var fresh).
  destruct (is_ok _); [by left|by right].
Qed.

(** [configure_sanitizers] returns exactly when the three option strings
    are loadable; it then leaves [with_sanitizer_options] behind, passed
    through [configure_symbolizer]. *)
Lemma configure_sanitizers_spec env target_dir log_path log :
  (options_loadable env "ASAN_OPTIONS"
   /\ options_loadable env "LSAN_OPTIONS"
   /\ options_loadable env "UBSAN_OPTIONS" ->
   exists log3,
     configure_sanitizers env target_dir log_path log =
       (configure_symbolizer target_dir (with_sanitizer_options env log_path) log3,
        Ok tt))
  /\ (~ (options_loadable env "ASAN_OPTIONS"
         /\ options_loadable env "LSAN_OPTIONS"
         /\ options_loadable env "UBSAN_OPTIONS") ->
      exists r e, configure_sanitizers env target_dir log_path log = (r, Raise e)
                  /\ (e = AssertionError \/ e = IOError)).
Proof.
  unfold configure_sanitizers, with_sanitizer_options.
  set (a := options (add_all (asan_adds log_path)
                       (ls_self (load_options env "ASAN_OPTIONS" fresh).1))).
  set (l := options (add_all lsan_adds
                       (ls_self (load_options env "LSAN_OPTIONS" fresh).1))).
  set (u := options (add_all (ubsan_adds log_path)
                       (ls_self (load_options env "UBSAN_OPTIONS" fresh).1))).
  destruct (loadable_dec env "ASAN_OPTIONS") as [H1|H1]; cycle 1.
  { destruct (proj2 (configure_family_spec "ASAN_OPTIONS" (asan_adds log_path)
                       env log) H1) as (r & e & -> & He).
    split; [intros [? _]; done|]. intros _. destruct r. eauto. }
  destruct (proj1 (configure_family_spec "ASAN_OPTIONS" (asan_adds log_path)
                     env log) H1) as (log1 & ->).
  fold a.
  assert (options_loadable (<["ASAN_OPTIONS" := a]> env) "LSAN_OPTIONS"
          <-> options_loadable env "LSAN_OPTIONS")
    as Hl2 by by apply options_loadable_insert.
  destruct (loadable_dec env "LSAN_OPTIONS") as [H2|H2]; cycle 1.
  { destruct (proj2 (configure_family_spec "LSAN_OPTIONS" lsan_adds
                       (<["ASAN_OPTIONS" := a]> env) log1))
      as (r & e & -> & He); [by rewrite Hl2|].
    split; [intros (_ & ? & _); done|]. intros _. destruct r. eauto. }
  pose proof (proj1 (configure_family_spec "LSAN_OPTIONS" lsan_adds
                       (<["ASAN_OPTIONS" := a]> env) log1)) as E2.
  rewrite load_options_insert in E2 by done. fold l in E2.
  destruct E2 as (log2 & ->); [by rewrite Hl2|].
  assert (options_loadable (<["LSAN_OPTIONS" := l]> (<["ASAN_OPTIONS" := a]> env))
            "UBSAN_OPTIONS"
          <-> options_loadable env "UBSAN_OPTIONS") as Hl3.
  { by rewrite !options_loadable_insert. }
  destruct (loadable_dec env "UBSAN_OPTIONS") as [H3|H3]; cycle 1.
  { destruct (proj2 (configure_family_spec "UBSAN_OPTIONS" (ubsan_adds log_path)
                       (<["LSAN_OPTIONS" := l]> (<["ASAN_OPTIONS" := a]> env)) log2))
      as (r & e & -> & He); [by rewrite Hl3|].
    split; [intros (_ & _ & ?); done|]. intros _. destruct r. eauto. }
  pose proof (proj1 (configure_family_spec "UBSAN_OPTIONS" (ubsan_adds log_path)
                       (<["LSAN_OPTIONS" := l]> (<["ASAN_OPTIONS" := a]> env)) log2))
    as E3.
  rewrite !load_options_insert in E3 by done. fold u in E3.
  destruct E3 as (log3 & ->); [by rewrite Hl3|].
  split; [|intros Hno; destruct Hno; done].
  intros _. exists log3. done.
Qed.

End EnvironmentMore.

Section PrepareMore.
Context `{OsPath}.

Lemma options_loadable_ext env1 env2 var :
  env1 !! var = env2 !! var ->
  options_loadable env1 var <-> options_loadable env2 var.
Proof. intros Heq. unfold options_loadable. by rewrite Heq. Qed.

(** The assignments of lines 279-296 leave the sanitizer variables alone. *)
Lemma toggles_keep environ var :
  var ∈ ["ASAN_OPTIONS"; "LSAN_OPTIONS"; "UBSAN_OPTIONS"; "ASAN_SYMBOLIZER_PATH"] ->
  foldl assign_if_absent (foldl assign environ fixed_toggles) default_toggles !! var
  = environ !! var.
Proof.
  intros Hin.
  assert (var ∉ fixed_toggles.*1 ++ default_toggles.*1) as Hno.
  { intros Ht. by apply (toggle_names_not_sanitizer var Ht). }
  apply not_elem_of_app in Hno as [Hf Hd].
  rewrite foldl_assign_if_absent_notin by done. by apply foldl_assign_notin.
Qed.

(** What [prepare_environment] returns, when it returns. *)
Lemma prepare_environment_Ok environ target_dir sanitizer_log env_mod
    log log' env :
  prepare_environment environ target_dir sanitizer_log env_mod log
    = (log', Ok env) ->
  exists log3, forall name,
    env !! name =
      after_env_mod env_mod name
        ((configure_symbolizer target_dir
            (with_sanitizer_options
               (foldl assign_if_absent (foldl assign environ fixed_toggles)
                      default_toggles) sanitizer_log) log3).1 !! name).
Proof.
  unfold prepare_environment.
  set (env0 := foldl assign_if_absent (foldl assign environ fixed_toggles)
                     default_toggles).
  destruct (configure_sanitizers_spec env0 target_dir sanitizer_log log)
    as [Hyes Hno].
  destruct (loadable_dec env0 "ASAN_OPTIONS") as [H1|H1];
    [destruct (loadable_dec env0 "LSAN_OPTIONS") as [H2|H2];
     [destruct (loadable_dec env0 "UBSAN_OPTIONS") as [H3|H3]|]|].
  - destruct Hyes as (log3 & ->); [done|].
    destruct (configure_symbolizer target_dir _ log3) as [env3 log4] eqn:Es.
    intros Hp. exists log3. rewrite Es. cbn [fst]. intros name.
    destruct env_mod as [env_mod|].
    + assert (env = foldl apply_mod env3 (map_to_list env_mod)) as -> by congruence.
      unfold after_env_mod. rewrite foldl_apply_mod by apply NoDup_fst_map_to_list.
      by rewrite list_to_map_to_list.
    + assert (env = env3) as -> by congruence. done.
  - destruct Hno as (r & e & -> & _); [by intros (_ & _ & ?)|]. by destruct r.
  - destruct Hno as (r & e & -> & _); [by intros (_ & ? & _)|]. by destruct r.
  - destruct Hno as (r & e & -> & _); [by intros (? & _)|]. by destruct r.
Qed.

Lemma with_sanitizer_options_other env log_path name :
  name ∉ ["ASAN_OPTIONS"; "LSAN_OPTIONS"; "UBSAN_OPTIONS"] ->
  with_sanitizer_options env log_path !! name = env !! name.
Proof.
  intros Hn.
  apply not_elem_of_cons in Hn as [Hn1 Hn].
  apply not_elem_of_cons in Hn as [Hn2 Hn].
  apply not_elem_of_cons in Hn as [Hn3 _].
  unfold with_sanitizer_options. by rewrite !lookup_insert_ne.
Qed.

Lemma with_sanitizer_options_family env log_path var adds :
  (var, adds) ∈ sanitizer_families log_path ->
  with_sanitizer_options env log_path !! var
  = Some (options (add_all adds (ls_self (load_options env var fresh).1))).
Proof.
  unfold sanitizer_families, with_sanitizer_options. intros Hin.
  apply elem_of_cons in Hin as [[= -> ->]|Hin].
  { rewrite !lookup_insert_ne by done. apply lookup_insert_eq. }
  apply elem_of_cons in Hin as [[= -> ->]|Hin].
  { rewrite lookup_insert_ne by done. apply lookup_insert_eq. }
  apply elem_of_cons in Hin as [[= -> ->]|Hin].
  { apply lookup_insert_eq. }
  by apply elem_of_nil in Hin.
Qed.

Lemma configure_symbolizer_path target_dir env log :
  (configure_symbolizer target_dir env log).1 !! "ASAN_SYMBOLIZER_PATH" =
    match env !! "ASAN_SYMBOLIZER_PATH" with
    | Some path => Some path
    | None =>
        if negb (Py.startswith (Py.lower platform_system) "windows")
           && isfile (path_join target_dir "llvm-symbolizer")
        then Some (path_join target_dir "llvm-symbolizer")
        else None
    end.
Proof.
  unfold configure_symbolizer.
  destruct (env !! "ASAN_SYMBOLIZER_PATH") as [path|] eqn:E.
  { by destruct (negb (isfile path)). }
  destruct (negb (Py.startswith _ _)); cbn [andb].
  - destruct (isfile _); cbn [fst]; [by rewrite lookup_insert_eq|done].
  - by destruct (negb (Py.truthy _)).
Qed.

End PrepareMore.

(** X9: [prepare_environment] returns an environment exactly when each of
    [ASAN_OPTIONS], [LSAN_OPTIONS] and [UBSAN_OPTIONS], if set in the
    process environment, contains no space and names no suppressions file
    that does not exist; otherwise it raises [AssertionError] or
    [IOError].  Neither [target_dir], [sanitizer_log] nor [env_mod] can
    make it fail. *)
Theorem prepare_environment_succeeds_iff `{OsPath}
    (environ : gmap string string) (target_dir sanitizer_log : string)
    (env_mod : option (gmap string (option string))) (log : list log_event) :
  ((exists log' env,
      prepare_environment environ target_dir sanitizer_log env_mod log
        = (log', Ok env)) <->
   forall var, var ∈ ["ASAN_OPTIONS"; "LSAN_OPTIONS"; "UBSAN_OPTIONS"] ->
     options_loadable environ var)
  /\ (forall log' e,
        prepare_environment environ target_dir sanitizer_log env_mod log
          = (log', Raise e) ->
        e = AssertionError \/ e = IOError).
Proof.
  unfold prepare_environment.
  set (env0 := foldl assign_if_absent (foldl assign environ fixed_toggles)
                     default_toggles).
  assert (forall var, var ∈ ["ASAN_OPTIONS"; "LSAN_OPTIONS"; "UBSAN_OPTIONS"] ->
            (options_loadable env0 var <-> options_loadable environ var)) as Hext.
  { intros var Hin. apply options_loadable_ext, toggles_keep.
    apply elem_of_cons in Hin as [->|Hin]; [by left|].
    apply elem_of_cons in Hin as [->|Hin]; [by right; left|].
    apply elem_of_cons in Hin as [->|Hin]; [by right; right; left|].
    by apply elem_of_nil in Hin. }
  assert (options_loadable env0 "ASAN_OPTIONS"
          /\ options_loadable env0 "LSAN_OPTIONS"
          /\ options_loadable env0 "UBSAN_OPTIONS"
          <-> forall var, var ∈ ["ASAN_OPTIONS"; "LSAN_OPTIONS"; "UBSAN_OPTIONS"] ->
                options_loadable environ var) as Hall.
  { split.
    - intros (H1 & H2 & H3) var Hin. apply Hext; [done|].
      apply elem_of_cons in Hin as [->|Hin]; [done|].
      apply elem_of_cons in Hin as [->|Hin]; [done|].
      apply elem_of_cons in Hin as [->|Hin]; [done|].
      by apply elem_of_nil in Hin.
    - intros Hv. split_and!; (apply Hext; [|apply Hv]).
      all: first [by left | by right; left | by right; right; left]. }
  destruct (configure_sanitizers_spec env0 target_dir sanitizer_log log)
    as [Hyes Hno].
  assert ((options_loadable env0 "ASAN_OPTIONS"
           /\ options_loadable env0 "LSAN_OPTIONS"
           /\ options_loadable env0 "UBSAN_OPTIONS")
          \/ ~ (options_loadable env0 "ASAN_OPTIONS"
                /\ options_loadable env0 "LSAN_OPTIONS"
                /\ options_loadable env0 "UBSAN_OPTIONS")) as [Hl|Hl].
  { destruct (loadable_dec env0 "ASAN_OPTIONS");
      destruct (loadable_dec env0 "LSAN_OPTIONS");
      destruct (loadable_dec env0 "UBSAN_OPTIONS"); tauto. }
  - destruct (Hyes Hl) as (log3 & ->).
    destruct (configure_symbolizer target_dir _ log3) as [env3 log4].
    split.
    + split; [intros _; by apply Hall|].
      intros _. destruct env_mod; eauto.
    + intros log' e. by destruct env_mod.
  - destruct (Hno Hl) as ([env1 log1] & e & -> & He). split.
    + split; [by intros (log' & env & ?)|].
      intros Hv. destruct Hl. by apply Hall.
    + by intros log' e' [= _ <-].
Qed.

(** X10: [env_mod] is applied last and decides nothing else: a call with
    [env_mod] returns whenever the call without it does, with the same
    log, and its environment is that of the call without it changed name
    by name, a string replacing the value and [None] removing the
    variable. *)
Theorem env_mod_applied_last `{OsPath}
    (environ : gmap string string) (target_dir sanitizer_log : string)
    (env_mod : gmap string (option string))
    (log log' : list log_event) (env0 : gmap string string) :
  prepare_environment environ target_dir sanitizer_log None log
    = (log', Ok env0) ->
  exists env1,
    prepare_environment environ target_dir sanitizer_log (Some env_mod) log
      = (log', Ok env1)
    /\ forall name,
         env1 !! name =
           match env_mod !! name with
           | Some (Some env_value) => Some env_value
           | Some None => None
           | None => env0 !! name
           end.
Proof.
  unfold prepare_environment.
  destruct (configure_sanitizers _ _ _ _) as [[env log1] [[]|e]]; [|done].
  intros Heq. assert (log1 = log' /\ env = env0) as [-> ->].
  { split; congruence. }
  eexists. split; [reflexivity|]. intros name.
  rewrite foldl_apply_mod by apply NoDup_fst_map_to_list.
  by rewrite list_to_map_to_list.
Qed.

Lemma env_mod_applied_last_witness :
  let env_mod : gmap string (option string) :=
    {[ "G_SLICE" := None; "MOZ_GDB_SLEEP" := Some "5" ]} in
  exists log' env0 env1,
    @prepare_environment example_os example_environ "/opt/firefox"
      "/tmp/ffprof/asan" None [] = (log', Ok env0)
    /\ @prepare_environment example_os example_environ "/opt/firefox"
         "/tmp/ffprof/asan" (Some env_mod) [] = (log', Ok env1)
    /\ env1 !! "G_SLICE" = None
    /\ env1 !! "MOZ_GDB_SLEEP" = Some "5".
Proof.
  intros env_mod.
  assert (is_ok (@prepare_environment example_os example_environ "/opt/firefox"
                   "/tmp/ffprof/asan" None []).2 = true) as Hok
    by (vm_compute; reflexivity).
  destruct (@prepare_environment example_os example_environ "/opt/firefox"
              "/tmp/ffprof/asan" None []) as [log' [env0|e]] eqn:Hp;
    [|discriminate Hok].
  destruct (@env_mod_applied_last example_os _ _ _ env_mod _ _ _ Hp)
    as (env1 & Hp1 & Hl).
  exists log', env0, env1. split; [reflexivity|]. split; [exact Hp1|].
  split.
  - rewrite Hl. vm_compute. reflexivity.
  - rewrite Hl. vm_compute. reflexivity.
Defined.

(** X11: every variable of the process environment that is neither in the
    two toggle tables nor one of the four sanitizer variables reaches the
    result unchanged, and a variable that is none of these and unset stays
    unset, unless [env_mod] names it. *)
Theorem environment_is_inherited `{OsPath}
    (environ : gmap string string) (target_dir sanitizer_log : string)
    (env_mod : option (gmap string (option string)))
    (log log' : list log_event) (env : gmap string string) (name : string) :
  prepare_environment environ target_dir sanitizer_log env_mod log
    = (log', Ok env) ->
  name ∉ fixed_toggles.*1 ++ default_toggles.*1 ->
  name ∉ ["ASAN_OPTIONS"; "LSAN_OPTIONS"; "UBSAN_OPTIONS"; "ASAN_SYMBOLIZER_PATH"] ->
  env !! name = after_env_mod env_mod name (environ !! name).
Proof.
  intros Hp Ht Hs.
  rewrite (prepare_environment_lookup _ _ _ _ _ _ _ name Hp Hs).
  apply not_elem_of_app in Ht as [Hf Hd].
  rewrite foldl_assign_if_absent_notin by done.
  by rewrite foldl_assign_notin.
Qed.

Lemma environment_is_inherited_witness :
  exists log' env,
    @prepare_environment example_os example_environ "/opt/firefox"
      "/tmp/ffprof/asan" None [] = (log', Ok env)
    /\ env !! "HOME" = Some "/home/user"
    /\ env !! "DISPLAY" = None.
Proof.
  assert (is_ok (@prepare_environment example_os example_environ "/opt/firefox"
                   "/tmp/ffprof/asan" None []).2 = true) as Hok
    by (vm_compute; reflexivity).
  destruct (@prepare_environment example_os example_environ "/opt/firefox"
              "/tmp/ffprof/asan" None []) as [log' [env|e]] eqn:Hp;
    [|discriminate Hok].
  exists log', env. split; [reflexivity|]. split.
  - rewrite (@environment_is_inherited example_os _ _ _ _ _ _ _ "HOME" Hp).
    + vm_compute. reflexivity.
    + apply (bool_decide_unpack _). vm_compute. exact I.
    + apply (bool_decide_unpack _). vm_compute. exact I.
  - rewrite (@environment_is_inherited example_os _ _ _ _ _ _ _ "DISPLAY" Hp).
    + vm_compute. reflexivity.
    + apply (bool_decide_unpack _). vm_compute. exact I.
    + apply (bool_decide_unpack _). vm_compute. exact I.
Defined.

(** X12: [ASAN_SYMBOLIZER_PATH].  A value set in the process environment
    is kept as it is, whether or not it names a file.  When unset, the
    variable is set to [target_dir] joined with [llvm-symbolizer] if the
    platform name does not start with [windows] and that file exists, and
    is left unset otherwise.  [env_mod], applied last, is the only other
    influence. *)
Theorem symbolizer_resolution `{OsPath}
    (environ : gmap string string) (target_dir sanitizer_log : string)
    (env_mod : option (gmap string (option string)))
    (log log' : list log_event) (env : gmap string string) :
  prepare_environment environ target_dir sanitizer_log env_mod log
    = (log', Ok env) ->
  env !! "ASAN_SYMBOLIZER_PATH" =
    after_env_mod env_mod "ASAN_SYMBOLIZER_PATH"
      (match environ !! "ASAN_SYMBOLIZER_PATH" with
       | Some path => Some path
       | None =>
           if negb (Py.startswith (Py.lower platform_system) "windows")
              && isfile (path_join target_dir "llvm-symbolizer")
           then Some (path_join target_dir "llvm-symbolizer")
           else None
       end).
Proof.
  intros Hp. destruct (prepare_environment_Ok _ _ _ _ _ _ _ Hp) as (log3 & ->).
  f_equal. rewrite configure_symbolizer_path.
  rewrite with_sanitizer_options_other; cycle 1.
  { apply (bool_decide_unpack _). vm_compute. exact I. }
  rewrite toggles_keep; [done|].
  apply (bool_decide_unpack _). vm_compute. exact I.
Qed.

Lemma symbolizer_resolution_witness :
  exists log' env,
    @prepare_environment example_os example_environ "/opt/firefox"
      "/tmp/ffprof/asan" None [] = (log', Ok env)
    /\ env !! "ASAN_SYMBOLIZER_PATH" = Some "/opt/firefox/llvm-symbolizer".
Proof.
  assert (is_ok (@prepare_environment example_os example_environ "/opt/firefox"
                   "/tmp/ffprof/asan" None []).2 = true) as Hok
    by (vm_compute; reflexivity).
  destruct (@prepare_environment example_os example_environ "/opt/firefox"
              "/tmp/ffprof/asan" None []) as [log' [env|e]] eqn:Hp;
    [|discriminate Hok].
  exists log', env. split; [reflexivity|].
  rewrite (@symbolizer_resolution example_os _ _ _ _ _ _ _ Hp).
  vm_compute. reflexivity.
Defined.

(** X13: in the result, each of [ASAN_OPTIONS], [LSAN_OPTIONS] and
    [UBSAN_OPTIONS] is a serialization, in some order of the items, of the
    options loaded from that variable of the process environment overlaid
    by the [add] calls of its family; it is set also when the process
    environment did not have it.  [env_mod], applied last, is the only
    other influence. *)
Theorem sanitizer_options_overlay `{OsPath}
    (environ : gmap string string) (target_dir sanitizer_log : string)
    (env_mod : option (gmap string (option string)))
    (log log' : list log_event) (env : gmap string string)
    (var : string) (adds : list (string * string * bool)) :
  prepare_environment environ target_dir sanitizer_log env_mod log
    = (log', Ok env) ->
  (var, adds) ∈ sanitizer_families sanitizer_log ->
  exists items,
    items ≡ₚ map_to_list
               (_options (add_all adds
                            (ls_self (load_options environ var fresh).1)))
    /\ env !! var = after_env_mod env_mod var (Some (serialize_items items)).
Proof.
  intros Hp Hin. destruct (prepare_environment_Ok _ _ _ _ _ _ _ Hp) as (log3 & ->).
  eexists. split; [reflexivity|]. f_equal.
  assert (var ∈ ["ASAN_OPTIONS"; "LSAN_OPTIONS"; "UBSAN_OPTIONS"]) as Hvar.
  { unfold sanitizer_families in Hin.
    apply elem_of_cons in Hin as [[= -> _]|Hin]; [by left|].
    apply elem_of_cons in Hin as [[= -> _]|Hin]; [by right; left|].
    apply elem_of_cons in Hin as [[= -> _]|Hin]; [by right; right; left|].
    by apply elem_of_nil in Hin. }
  rewrite configure_symbolizer_other; cycle 1.
  { intros ->. revert Hvar. apply (bool_decide_unpack _). vm_compute. exact I. }
  rewrite (with_sanitizer_options_family _ _ var adds Hin).
  assert (ls_self (load_options
                     (foldl assign_if_absent (foldl assign environ fixed_toggles)
                            default_toggles) var fresh).1
          = ls_self (load_options environ var fresh).1) as ->; [|done].
  apply load_options_self; [|done].
  apply toggles_keep.
  apply elem_of_cons in Hvar as [->|Hvar]; [by left|].
  apply elem_of_cons in Hvar as [->|Hvar]; [by right; left|].
  apply elem_of_cons in Hvar as [->|Hvar]; [by right; right; left|].
  by apply elem_of_nil in Hvar.
Qed.

Lemma sanitizer_options_overlay_witness :
  exists log' env items,
    @prepare_environment example_os example_environ "/opt/firefox"
      "/tmp/ffprof/asan" None [] = (log', Ok env)
    /\ items ≡ₚ map_to_list (_options (add_all lsan_adds SanitizerConfig_init))
    /\ env !! "LSAN_OPTIONS" = Some (serialize_items items).
Proof.
  assert (is_ok (@prepare_environment example_os example_environ "/opt/firefox"
                   "/tmp/ffprof/asan" None []).2 = true) as Hok
    by (vm_compute; reflexivity).
  destruct (@prepare_environment example_os example_environ "/opt/firefox"
              "/tmp/ffprof/asan" None []) as [log' [env|e]] eqn:Hp;
    [|discriminate Hok].
  destruct (@sanitizer_options_overlay example_os _ _ _ _ _ _ _
              "LSAN_OPTIONS" lsan_adds Hp) as (items & Hperm & Henv).
  { right; left. }
  exists log', env, items. split; [reflexivity|]. split; [exact Hperm|exact Henv].
Defined.

(** ** The forced log path, read back *)

Section LogPathFacts.
Context `{OsPath}.

Lemma constant_name_ok k :
  k <> "" -> Py.contains ":" k = false -> Py.contains "=" k = false ->
  Py.contains " " k = false -> Py.starts_with_char "\" k = false ->
  Py.starts_with_char "|" k = false -> Py.starts_with_char "/" k = false ->
  name_ok k.
Proof.
  intros Hne Hc He Hs H1 H2 H3. split_and!; try done.
  intros d Hd. destruct k as [|c k]; [done|]. simpl in *. simplify_eq.
  intros [->|[->| ->]]; done.
Qed.

Lemma constant_value_ok v :
  Py.contains "=" v = false -> Py.contains " " v = false ->
  re_split re_delim v = [v] -> value_ok v.
Proof.
  intros He Hs Hv. split_and!; try done. by apply one_token_no_boundary.
Qed.

Lemma asan_adds_ok log_path :
  value_ok (quoted log_path) -> Forall call_ok (asan_adds log_path).
Proof.
  intros Hq. unfold asan_adds.
  repeat (apply Forall_cons; split); try (by apply Forall_nil).
  all: unfold call_ok; cbn [fst snd]; split_and!;
    [ by apply constant_name_ok
    | first [exact Hq | by apply constant_value_ok]
    | by intros ? ].
Qed.

Lemma ubsan_adds_ok log_path :
  value_ok (quoted log_path) -> Forall call_ok (ubsan_adds log_path).
Proof.
  intros Hq. unfold ubsan_adds.
  repeat (apply Forall_cons; split); try (by apply Forall_nil).
  all: unfold call_ok; cbn [fst snd]; split_and!;
    [ by apply constant_name_ok
    | first [exact Hq | by apply constant_value_ok]
    | by intros ? ].
Qed.

(** Every option of a configuration built from well-formed loaded options
    and well-formed [add] calls is well formed. *)
Lemma overlay_items_ok calls loaded :
  Forall call_ok calls ->
  (forall k v, _options loaded !! k = Some v ->
     name_ok k /\ value_ok v /\ suppressions_ok k v) ->
  Forall (fun kv => name_ok kv.1 /\ value_ok kv.2 /\ suppressions_ok kv.1 kv.2)
         (map_to_list (_options (add_all calls loaded))).
Proof.
  intros Hcalls Hloaded. apply Forall_forall. intros [k v] Hin.
  apply elem_of_map_to_list in Hin.
  apply add_all_lookup in Hin as [Hin|[o Hin]]; [by apply Hloaded|].
  rewrite Forall_forall in Hcalls. exact (Hcalls _ Hin).
Qed.

(** Whatever the order of serialization, a well-formed configuration is
    read back option by option. *)
Lemma parsed_option_serialized (config : SanitizerConfig) items name :
  Forall (fun kv => name_ok kv.1 /\ value_ok kv.2 /\ suppressions_ok kv.1 kv.2)
         (map_to_list (_options config)) ->
  items ≡ₚ map_to_list (_options config) ->
  parsed_option (serialize_items items) name = _options config !! name.
Proof.
  intros Hok Hperm. unfold parsed_option, fresh.
  destruct (load_permuted_items (_options config) items "OPTIONS" [] Hok Hperm)
    as [_ ->]. done.
Qed.

End LogPathFacts.

(** C3, as amended: let [prepare_environment] with [env_mod=None] return
    an environment, let the [sanitizer_log] prefix in single quotes
    contain no equals sign, no space and no colon other than one
    immediately followed by a backslash, pipe or forward slash, and let
    the options loaded from the input [ASAN_OPTIONS] and [UBSAN_OPTIONS]
    have well-formed names and values ([name_ok], [value_ok]), a
    [suppressions] value being already the normalized path of an existing
    file.  Then the resulting [ASAN_OPTIONS]
    and [UBSAN_OPTIONS] are serializations of option lists from which
    [load_options] parses [log_path] as the prefix in single quotes,
    whatever [log_path] the input environment gave, and it parses the
    same from the serialization of these options in any other order. *)
Theorem log_path_forced `{OsPath}
    (environ : gmap string string) (target_dir sanitizer_log : string)
    (log log' : list log_event) (env : gmap string string) :
  prepare_environment environ target_dir sanitizer_log None log
    = (log', Ok env) ->
  value_ok (quoted sanitizer_log) ->
  loaded_well_formed environ "ASAN_OPTIONS" ->
  loaded_well_formed environ "UBSAN_OPTIONS" ->
  exists asan_items ubsan_items,
    env !! "ASAN_OPTIONS" = Some (serialize_items asan_items)
    /\ env !! "UBSAN_OPTIONS" = Some (serialize_items ubsan_items)
    /\ (forall items, items ≡ₚ asan_items ->
          parsed_option (serialize_items items) "log_path"
          = Some (quoted sanitizer_log))
    /\ (forall items, items ≡ₚ ubsan_items ->
          parsed_option (serialize_items items) "log_path"
          = Some (quoted sanitizer_log)).
Proof.
  intros Hp Hq Hasan Hubsan.
  destruct (prepare_environment_Ok _ _ _ _ _ _ _ Hp) as (log3 & Henv).
  set (env0 := foldl assign_if_absent (foldl assign environ fixed_toggles)
                     default_toggles) in *.
  assert (forall var,
            var ∈ ["ASAN_OPTIONS"; "LSAN_OPTIONS"; "UBSAN_OPTIONS";
                   "ASAN_SYMBOLIZER_PATH"] ->
            ls_self (load_options env0 var fresh).1
            = ls_self (load_options environ var fresh).1) as Hload.
  { intros var Hvar. apply load_options_self; [|done]. by apply toggles_keep. }
  set (asan := add_all (asan_adds sanitizer_log)
                 (ls_self (load_options environ "ASAN_OPTIONS" fresh).1)).
  set (ubsan := add_all (ubsan_adds sanitizer_log)
                  (ls_self (load_options environ "UBSAN_OPTIONS" fresh).1)).
  exists (map_to_list (_options asan)), (map_to_list (_options ubsan)).
  split_and!.
  - rewrite Henv. cbn [after_env_mod].
    rewrite configure_symbolizer_other by done.
    rewrite (with_sanitizer_options_family _ _ "ASAN_OPTIONS"
               (asan_adds sanitizer_log)) by by left.
    rewrite Hload by by left. done.
  - rewrite Henv. cbn [after_env_mod].
    rewrite configure_symbolizer_other by done.
    rewrite (with_sanitizer_options_family _ _ "UBSAN_OPTIONS"
               (ubsan_adds sanitizer_log)) by by right; right; left.
    rewrite Hload by by right; right; left. done.
  - intros items Hperm. rewrite (parsed_option_serialized asan); [|..|done].
    + apply asan_adds_log_path.
    + apply overlay_items_ok; [by apply asan_adds_ok|exact Hasan].
  - intros items Hperm. rewrite (parsed_option_serialized ubsan); [|..|done].
    + apply ubsan_adds_log_path.
    + apply overlay_items_ok; [by apply ubsan_adds_ok|exact Hubsan].
Qed.

Lemma example_loaded_well_formed var :
  var = "ASAN_OPTIONS" \/ var = "UBSAN_OPTIONS" ->
  @loaded_well_formed example_os example_environ var.
Proof.
  intros Hvar k v Hl. apply elem_of_map_to_list in Hl.
  assert (map_to_list
            (_options (ls_self (@load_options example_os example_environ
                                  "ASAN_OPTIONS" fresh).1))
          = [("log_path", "/elsewhere/asan.log"); ("detect_leaks", "true")])
    as Ha by (vm_compute; reflexivity).
  assert (map_to_list
            (_options (ls_self (@load_options example_os example_environ
                                  "UBSAN_OPTIONS" fresh).1))
          = [("log_path", "/elsewhere/ubsan.log")])
    as Hu by (vm_compute; reflexivity).
  assert (forall kv : string * string,
            kv ∈ [("log_path", "/elsewhere/asan.log"); ("detect_leaks", "true")]
                 ++ [("log_path", "/elsewhere/ubsan.log")] ->
            name_ok kv.1 /\ value_ok kv.2
            /\ @suppressions_ok example_os kv.1 kv.2) as Hall.
  { apply Forall_forall, Forall_app. split.
    all: repeat (apply Forall_cons; split); try (by apply Forall_nil).
    all: cbn [fst snd]; split_and!.
    all: lazymatch goal with
         | |- name_ok _ => apply constant_name_ok
         | |- value_ok _ => apply constant_value_ok
         | |- suppressions_ok _ _ => intros Hk; discriminate Hk
         end.
    all: lazymatch goal with
         | |- _ <> _ => intros Hk; discriminate Hk
         | |- _ => vm_compute; reflexivity
         end. }
  apply (Hall (k, v)), elem_of_app.
  destruct Hvar as [-> | ->]; [rewrite Ha in Hl|rewrite Hu in Hl].
  - left. exact Hl.
  - right. exact Hl.
Qed.

Lemma log_path_forced_witness :
  exists log' env raw,
    @prepare_environment example_os example_environ "/opt/firefox"
      "/tmp/ffprof/asan" None [] = (log', Ok env)
    /\ env !! "ASAN_OPTIONS" = Some raw
    /\ @parsed_option example_os raw "log_path" = Some "'/tmp/ffprof/asan'".
Proof.
  assert (is_ok (@prepare_environment example_os example_environ "/opt/firefox"
                   "/tmp/ffprof/asan" None []).2 = true) as Hok
    by (vm_compute; reflexivity).
  destruct (@prepare_environment example_os example_environ "/opt/firefox"
              "/tmp/ffprof/asan" None []) as [log' [env|e]] eqn:Hp;
    [|discriminate Hok].
  destruct (@log_path_forced example_os _ _ _ _ _ _ Hp)
    as (asan_items & ubsan_items & Ha & _ & Hpa & _).
  - by apply constant_value_ok.
  - apply example_loaded_well_formed. by left.
  - apply example_loaded_well_formed. by right.
  - exists log', env, (serialize_items asan_items).
    split; [reflexivity|]. split; [exact Ha|]. by apply Hpa.
Defined.

(** Each restriction on what is read back is needed: with an equals sign
    in the prefix the token is malformed and no [log_path] is read, with
    a colon the value is cut and a later token takes its place, with a
    space [load_options] fails; and a suppressions file under a home
    directory with a space in its name puts a space into the option
    string. *)
Example parsed_log_path_needs_plain_prefix :
  let parsed sanitizer_log :=
    match @prepare_environment example_os example_environ "/opt/firefox"
            sanitizer_log None [] with
    | (_, Ok env) =>
        match env !! "ASAN_OPTIONS" with
        | Some raw => @parsed_option example_os raw "log_path"
        | None => None
        end
    | (_, Raise _) => None
    end in
  parsed "/tmp/a=b" = None
  /\ parsed "/tmp/x:log_path=evil" = Some "evil'"
  /\ parsed "/tmp/a b" = None.
Proof. repeat split; vm_compute; reflexivity. Qed.

Example parsed_log_path_needs_plain_options :
  let environ : gmap string string :=
    {[ "ASAN_OPTIONS" := "suppressions=~/asan.supp" ]} in
  match @prepare_environment spaced_home_os environ "/opt/firefox"
          "/tmp/log" None [] with
  | (_, Ok env) =>
      match env !! "ASAN_OPTIONS" with
      | Some raw => @parsed_option spaced_home_os raw "log_path"
      | None => Some "unset"
      end
  | (_, Raise _) => Some "raised"
  end = None.
Proof. vm_compute. reflexivity. Qed.

(** ** [wait_on_files], continued *)

Section WaiterMore.
Context `{OsPath}.

Lemma wait_loop_unfold world pid watch poll_rate recursive wait_end fuel i trace :
  wait_loop world pid watch poll_rate recursive wait_end fuel i trace =
    match obs_is_running (w_poll world i) with
    | PsOk running =>
        if running && negb (bool_decide (watch = [])) then
          if negb (existsb Py.truthy
                     (still_open watch
                        (poll_open_files (w_poll world i) pid recursive)))
          then Some (trace, Ok true)
          else if Qle_bool wait_end (obs_time (w_poll world i)) then
            Some (trace ++ [Log (DebugTimeoutWaitingFor
                                   (still_open watch
                                      (poll_open_files (w_poll world i) pid
                                         recursive)))],
                  Ok false)
          else
            match fuel with
            | O => None
            | S fuel =>
                wait_loop world pid watch poll_rate recursive wait_end
                  fuel (S i) (trace ++ [Sleep poll_rate])
            end
        else Some (trace, Ok true)
    | _ => Some (trace, Ok true)
    end.
Proof. by destruct fuel. Qed.

(** The effects of the loop: sleeps of [poll_rate], then, when it gives
    up, one debug message with the watched files open at that poll. *)
Lemma wait_loop_trace world pid watch poll_rate recursive wait_end fuel :
  forall i trace trace' r,
  wait_loop world pid watch poll_rate recursive wait_end fuel i trace
    = Some (trace', r) ->
  exists k, (k <= fuel)%nat
    /\ ((r = Ok true /\ trace' = trace ++ replicate k (Sleep poll_rate))
        \/ (r = Ok false
            /\ still_open watch
                 (poll_open_files (w_poll world (i + k)) pid recursive) <> []
            /\ trace' =
                 trace ++ replicate k (Sleep poll_rate)
                 ++ [Log (DebugTimeoutWaitingFor
                            (still_open watch
                               (poll_open_files (w_poll world (i + k)) pid
                                  recursive)))])).
Proof.
  induction fuel as [|fuel IH]; intros i trace trace' r; rewrite wait_loop_unfold.
  all: destruct (obs_is_running (w_poll world i)) as [running| |];
    try (intros [= <- <-]; exists 0%nat; split; [lia|]; left;
         by rewrite app_nil_r).
  all: destruct (running && negb (bool_decide (watch = [])));
    try (intros [= <- <-]; exists 0%nat; split; [lia|]; left;
         by rewrite app_nil_r).
  all: destruct (existsb Py.truthy _) eqn:Eo; cbn [negb];
    try (intros [= <- <-]; exists 0%nat; split; [lia|]; left;
         by rewrite app_nil_r).
  all: destruct (Qle_bool wait_end _).
  all: try (intros [= <- <-]; exists 0%nat; split; [lia|]; right;
            rewrite Nat.add_0_r; split; [done|]; split; [|done];
            intros Hnil; by rewrite Hnil in Eo).
  - done.
  - intros Hl. destruct (IH _ _ _ _ Hl) as (k & Hk & Hcase).
    exists (S k). split; [lia|].
    replace (i + S k)%nat with (S i + k)%nat by lia.
    destruct Hcase as [[-> ->]|(-> & Hne & ->)].
    + left. split; [done|]. by rewrite <- app_assoc.
    + right. split; [done|]. split; [done|]. by rewrite <- !app_assoc.
Qed.

(** A poll at which every enumeration of open files fails finds nothing
    open. *)
Lemma poll_open_files_all_fail obs pid recursive :
  (forall target paths, obs_open_files obs target <> PsOk paths) ->
  poll_open_files obs pid recursive = [].
Proof.
  intros Hfail. unfold poll_open_files.
  assert (forall targets : list Z,
            flat_map (fun target =>
                        match obs_open_files obs target with
                        | PsOk paths => paths
                        | _ => []
                        end) targets = []) as ->; [|done].
  induction targets as [|t targets IH]; [done|]. cbn [flat_map]. rewrite IH.
  destruct (obs_open_files obs t) as [paths| |] eqn:E; [|done|done].
  by destruct (Hfail t paths).
Qed.

(** Worlds that give the same answers about the process itself run the
    loop alike when [recursive] is not set. *)
Lemma wait_loop_own_files world1 world2 pid watch poll_rate wait_end fuel :
  (forall i, obs_is_running (w_poll world1 i) = obs_is_running (w_poll world2 i)) ->
  (forall i, obs_time (w_poll world1 i) = obs_time (w_poll world2 i)) ->
  (forall i, obs_open_files (w_poll world1 i) pid
             = obs_open_files (w_poll world2 i) pid) ->
  forall i trace,
    wait_loop world1 pid watch poll_rate false wait_end fuel i trace
    = wait_loop world2 pid watch poll_rate false wait_end fuel i trace.
Proof.
  intros Hrun Htime Hopen.
  induction fuel as [|fuel IH]; intros i trace;
    rewrite (wait_loop_unfold world1), (wait_loop_unfold world2).
  all: unfold poll_open_files; cbn [flat_map].
  all: rewrite Hrun, Htime, Hopen; try done.
  by rewrite IH.
Qed.

End WaiterMore.

(** X14: the only effects of a call that returns a boolean are [k] sleeps
    of [poll_rate] seconds each, at most one per unit of fuel, followed,
    when and only when the result is [False], by one debug message.  The
    message lists exactly the watched files found open at the last poll,
    the [k]-th: a path is listed if and only if it is the normalized path
    of an existing file of [wait_files] and of a file that the process or
    (if [recursive]) one of its reported descendants reports open at that
    poll; the list is not empty. *)
Theorem wait_effects `{OsPath} `{PyFloat}
    (world : World) (pid : Z) (wait_files : list string)
    (poll_rate : Q) (recursive : bool) (timeout : Q) (fuel : nat)
    (trace : list effect) (b : bool) :
  wait_on_files world pid wait_files poll_rate recursive timeout fuel
    = Some (trace, Ok b) ->
  exists k, (k <= fuel)%nat
    /\ if b then trace = replicate k (Sleep poll_rate)
       else exists files,
              trace = replicate k (Sleep poll_rate)
                      ++ [Log (DebugTimeoutWaitingFor files)]
              /\ files <> []
              /\ forall x, x ∈ files <->
                   open_in_tree world pid recursive k x /\ watched wait_files x.
Proof.
  unfold wait_on_files.
  destruct (negb (Qle_bool 0 poll_rate)); [done|].
  destruct (negb (Qle_bool 0 timeout)); [done|].
  destruct (negb (Qle_bool poll_rate timeout)); [done|].
  destruct (w_Process world pid) as [[]| |].
  - intros Hl. apply wait_loop_trace in Hl as (k & Hk & Hcase).
    exists k. split; [done|].
    destruct Hcase as [[[= ->] ->]|([= ->] & Hne & ->)]; [done|].
    eexists. split; [reflexivity|]. split; [done|].
    intros x. unfold still_open. rewrite list_elem_of_filter.
    rewrite elem_of_poll_open_files, elem_of_normalize_wait_files. tauto.
  - intros [= <- <-]. exists 0%nat. split; [lia|done].
  - intros [= <- <-]. exists 0%nat. split; [lia|done].
Qed.

Lemma wait_effects_witness :
  @wait_on_files example_os exact_float (example_world None) 4242
    ["/tmp/ffprof/lock"] (1#10) true (2#10) 10
  = Some ([Sleep (1#10); Log (DebugTimeoutWaitingFor ["/tmp/ffprof/lock"])],
          Ok false)
  /\ exists k, (k <= 10)%nat
       /\ exists files,
            [Sleep (1#10); Log (DebugTimeoutWaitingFor ["/tmp/ffprof/lock"])]
            = replicate k (Sleep (1#10)) ++ [Log (DebugTimeoutWaitingFor files)]
            /\ files <> []
            /\ forall x, x ∈ files <->
                 @open_in_tree example_os (example_world None) 4242 true k x
                 /\ @watched example_os ["/tmp/ffprof/lock"] x.
Proof.
  assert (@wait_on_files example_os exact_float (example_world None) 4242
            ["/tmp/ffprof/lock"] (1#10) true (2#10) 10
          = Some ([Sleep (1#10); Log (DebugTimeoutWaitingFor ["/tmp/ffprof/lock"])],
                  Ok false)) as Hw by (vm_compute; reflexivity).
  split; [exact Hw|].
  exact (@wait_effects example_os exact_float _ _ _ _ _ _ _ _ false Hw).
Defined.

(** X16: a path that does not exist on disk is dropped from the watch
    list: with or without it, the call does the same. *)
Theorem nonexistent_paths_dropped `{OsPath} `{PyFloat}
    (world : World) (pid : Z) (before after : list string) (path : string)
    (poll_rate : Q) (recursive : bool) (timeout : Q) (fuel : nat) :
  path_exists path = false ->
  wait_on_files world pid (before ++ path :: after) poll_rate recursive timeout fuel
  = wait_on_files world pid (before ++ after) poll_rate recursive timeout fuel.
Proof.
  intros Hp. unfold wait_on_files, normalize_wait_files.
  rewrite !filter_app, filter_cons_False; [done|]. by rewrite Hp.
Qed.

Lemma nonexistent_paths_dropped_witness :
  @path_exists example_os "/nonexistent" = false
  /\ @wait_on_files example_os exact_float (example_world None) 4242
       (["/tmp/ffprof/lock"] ++ "/nonexistent" :: []) (1#10) true (2#10) 10
     = @wait_on_files example_os exact_float (example_world None) 4242
         (["/tmp/ffprof/lock"] ++ []) (1#10) true (2#10) 10.
Proof.
  assert (@path_exists example_os "/nonexistent" = false) as Hp
    by (vm_compute; reflexivity).
  split; [exact Hp|].
  exact (@nonexistent_paths_dropped example_os exact_float _ _ _ _ _ _ _ _ _ Hp).
Defined.

(** X17: with [recursive=False] the descendants play no part: two worlds
    that agree on the clock and on what the process itself answers make
    the call do the same, whatever the children are and hold open. *)
Theorem non_recursive_ignores_children `{OsPath} `{PyFloat}
    (world1 world2 : World) (pid : Z) (wait_files : list string)
    (poll_rate timeout : Q) (fuel : nat) :
  w_time0 world1 = w_time0 world2 ->
  w_Process world1 pid = w_Process world2 pid ->
  (forall i, obs_is_running (w_poll world1 i) = obs_is_running (w_poll world2 i)) ->
  (forall i, obs_time (w_poll world1 i) = obs_time (w_poll world2 i)) ->
  (forall i, obs_open_files (w_poll world1 i) pid
             = obs_open_files (w_poll world2 i) pid) ->
  wait_on_files world1 pid wait_files poll_rate false timeout fuel
  = wait_on_files world2 pid wait_files poll_rate false timeout fuel.
Proof.
  intros Ht Hp Hrun Htime Hopen. unfold wait_on_files. rewrite Ht, Hp.
  destruct (negb (Qle_bool 0 poll_rate)); [done|].
  destruct (negb (Qle_bool 0 timeout)); [done|].
  destruct (negb (Qle_bool poll_rate timeout)); [done|].
  destruct (w_Process world2 pid) as [[]| |]; [|done|done].
  by apply wait_loop_own_files.
Qed.

Lemma non_recursive_ignores_children_witness :
  @wait_on_files example_os exact_float (example_world None) 4242 ["/tmp/ffprof/lock"]
    (1#10) false (2#10) 10
  = @wait_on_files example_os exact_float (example_world (Some 0%nat)) 4242
      ["/tmp/ffprof/lock"] (1#10) false (2#10) 10.
Proof.
  apply (@non_recursive_ignores_children example_os exact_float).
  - reflexivity.
  - reflexivity.
  - intros i. reflexivity.
  - intros i. reflexivity.
  - intros i. reflexivity.
Defined.

(** X18: a process whose open files cannot be enumerated counts as
    holding none: under the timing preconditions, if at the first poll
    every [open_files] call raises, the call returns [True] with no
    effect, although the process is running and may hold a watched
    file. *)
Theorem enumeration_failure_is_success `{OsPath} `{PyFloat}
    (world : World) (pid : Z) (wait_files : list string)
    (poll_rate : Q) (recursive : bool) (timeout : Q) (fuel : nat) :
  timing_ok poll_rate timeout ->
  (forall target paths, obs_open_files (w_poll world 0) target <> PsOk paths) ->
  wait_on_files world pid wait_files poll_rate recursive timeout fuel
    = Some ([], Ok true).
Proof.
  intros (H1 & H2 & H3) Hfail. unfold wait_on_files.
  apply Qle_bool_iff in H1, H2, H3. rewrite H1, H2, H3. cbn [negb].
  destruct (w_Process world pid) as [[]| |]; [|done|done].
  rewrite wait_loop_unfold, poll_open_files_all_fail by done.
  destruct (obs_is_running (w_poll world 0)) as [running| |]; [|done|done].
  by destruct (running && _).
Qed.

Lemma enumeration_failure_is_success_witness :
  timing_ok (1#10) 60
  /\ @wait_on_files example_os exact_float denied_world 4242 ["/tmp/ffprof/lock"]
       (1#10) true 60 0 = Some ([], Ok true).
Proof.
  assert (timing_ok (1#10) 60) as Ht.
  { unfold timing_ok. repeat split; discriminate. }
  split; [exact Ht|].
  apply (@enumeration_failure_is_success example_os exact_float _ _ _ _ _ _ _ Ht).
  intros target paths. discriminate.
Defined.

(** X19: with [timeout = 0] (hence [poll_rate = 0]) and a clock that does
    not run backwards between entry and the first poll, the call polls
    once and never sleeps: it returns [True] with no effect or [False]
    after the debug message, whatever the fuel. *)
Theorem zero_timeout_polls_once `{OsPath} `{PyFloat}
    (world : World) (pid : Z) (wait_files : list string)
    (poll_rate : Q) (recursive : bool) (timeout : Q) (fuel : nat) :
  timing_ok poll_rate timeout ->
  (timeout == 0)%Q ->
  (w_time0 world <= obs_time (w_poll world 0))%Q ->
  wait_on_files world pid wait_files poll_rate recursive timeout fuel
    = Some ([], Ok true)
  \/ exists files,
       wait_on_files world pid wait_files poll_rate recursive timeout fuel
         = Some ([Log (DebugTimeoutWaitingFor files)], Ok false).
Proof.
  intros (H1 & H2 & H3) Hz Hclock. unfold wait_on_files.
  apply Qle_bool_iff in H1, H2, H3. rewrite H1, H2, H3. cbn [negb].
  destruct (w_Process world pid) as [[]| |]; [|by left|by left].
  rewrite wait_loop_unfold.
  destruct (obs_is_running (w_poll world 0)) as [running| |]; [|by left|by left].
  destruct (running && _); [|by left].
  destruct (negb (existsb _ _)); [by left|].
  assert (Qle_bool (float_add (w_time0 world) timeout)
                   (obs_time (w_poll world 0)) = true) as ->.
  { apply Qle_bool_iff. by rewrite (float_add_0_r _ _ Hz). }
  right. eexists. reflexivity.
Qed.

Lemma zero_timeout_polls_once_witness :
  timing_ok 0 0
  /\ (@wait_on_files example_os exact_float (example_world None) 4242 ["/tmp/ffprof/lock"]
        0 true 0 0 = Some ([], Ok true)
      \/ exists files,
           @wait_on_files example_os exact_float (example_world None) 4242 ["/tmp/ffprof/lock"]
             0 true 0 0 = Some ([Log (DebugTimeoutWaitingFor files)], Ok false)).
Proof.
  assert (timing_ok 0 0) as Ht.
  { unfold timing_ok. repeat split; discriminate. }
  split; [exact Ht|].
  apply (@zero_timeout_polls_once example_os exact_float _ _ _ _ _ _ _ Ht).
  - reflexivity.
  - vm_compute. discriminate.
Defined.
